(** * File-based blogging system: the storage accessor of [utils/fileHandler.js]

    A shallow embedding of the seven operations the module exports
    ([getAllPosts], [getPostByFilename], [createPost], [updatePost],
    [deletePost], [searchPosts], [getPostsByTag]) and of [generateFilename],
    with the properties the specification states about them, and of the
    request handlers of [routes/posts.js] that call them, with properties
    of the module and of the handlers read off the code.

    Conventions of the embedding.
    - A JavaScript string is a [string]: one [ascii] per UTF-16 code unit,
      for code units below 256 (the Latin-1 range).  Within that range
      [trim], [toLowerCase], [includes], [endsWith], [replace], [split] and
      [substring] below are the functions of ECMAScript.
    - An [async] function is a computation in the monad [js]: it threads
      the state of the world (the posts directory, the system clock, the
      source of random bytes) and either returns or throws.  [await] is the
      bind of the monad, [try]/[catch] is [try_catch].  What [console.error]
      prints is not kept.
    - A post is an object with the eight properties the module writes and
      reads, each of the type [createPost] gives it; a record stands for it.
      The text of a file is kept up to what [JSON.parse] makes of it.
    - The posts directory is a finite map from file names to entries; a
      handle names a file of that directory (it holds no path separator).
      [path.join] normalises a handle that holds a separator, so that it
      names another entry or a file elsewhere; what the operations do on
      such a handle is not modelled, and the properties of a handle that
      need not be an entry of the directory are stated for plain handles.
      A write fails on a missing directory or on a name taken by a
      subdirectory; disk and permission faults, and the fault of a name
      longer than the file system takes, are not modelled. *)

From Stdlib Require Import ZArith NArith Ascii String List Lia Bool.
From stdpp Require Import gmap strings list fin_maps sorting.

Open Scope string_scope.
Open Scope list_scope.

#[local] Arguments String.append : simpl nomatch.

(** * Part I: the program *)

(** ** Strings *)

Module Str.

(** [WhiteSpace] and [LineTerminator] code units below 256: TAB, LF, VT, FF,
    CR, SPACE and NO-BREAK SPACE.  Both [String.prototype.trim] and the
    regular expression class [\s] use this set. *)
Definition is_space (c : ascii) : bool :=
  let n := N_of_ascii c in
  ((9 <=? n) && (n <=? 13) || (n =? 32) || (n =? 160))%N.

(** Simple case mapping of one code unit: A-Z, and the Latin-1 capitals
    U+00C0..U+00DE without the multiplication sign U+00D7. *)
Definition lower_char (c : ascii) : ascii :=
  let n := N_of_ascii c in
  if ((65 <=? n) && (n <=? 90) ||
      (192 <=? n) && (n <=? 222) && negb (n =? 215))%N
  then ascii_of_N (n + 32) else c.

(** [s.toLowerCase()] *)
Fixpoint toLowerCase (s : string) : string :=
  match s with
  | EmptyString => EmptyString
  | String c r => String (lower_char c) (toLowerCase r)
  end.

Fixpoint trimStart (s : string) : string :=
  match s with
  | EmptyString => EmptyString
  | String c r => if is_space c then trimStart r else s
  end.

Fixpoint trimEnd (s : string) : string :=
  match s with
  | EmptyString => EmptyString
  | String c r =>
      match trimEnd r with
      | EmptyString => if is_space c then EmptyString else String c EmptyString
      | r' => String c r'
      end
  end.

(** [s.trim()] *)
Definition trim (s : string) : string := trimEnd (trimStart s).

(** [s.startsWith(p)] *)
Fixpoint startsWith (p s : string) : bool :=
  match p, s with
  | EmptyString, _ => true
  | String _ _, EmptyString => false
  | String a p', String b s' => Ascii.eqb a b && startsWith p' s'
  end.

(** [s.includes(p)] *)
Fixpoint includes (p s : string) : bool :=
  startsWith p s ||
  match s with
  | EmptyString => false
  | String _ r => includes p r
  end.

(** [s.endsWith(p)] *)
Fixpoint endsWith (p s : string) : bool :=
  String.eqb p s ||
  match s with
  | EmptyString => false
  | String _ r => endsWith p r
  end.

Fixpoint drop (n : nat) (s : string) : string :=
  match n, s with
  | O, _ => s
  | S _, EmptyString => EmptyString
  | S n', String _ r => drop n' r
  end.

(** [s.replace(p, r)] for a string pattern [p] and a replacement [r] without
    [$]: the first occurrence of [p] is replaced, nothing else. *)
Fixpoint replace (p r s : string) : string :=
  if startsWith p s then r ++ drop (String.length p) s
  else match s with
       | EmptyString => EmptyString
       | String c s' => String c (replace p r s')
       end.

(** [s.split(sep)] for a separator of one code unit. *)
Fixpoint split (sep : ascii) (s : string) : list string :=
  match s with
  | EmptyString => [EmptyString]
  | String c r =>
      if Ascii.eqb c sep then EmptyString :: split sep r
      else match split sep r with
           | [] => [String c EmptyString]
           | w :: ws => String c w :: ws
           end
  end.

(** [s.substring(0, n)] *)
Definition take (n : nat) (s : string) : string := String.substring 0 n s.

(** A string is truthy when it is not empty. *)
Definition nonempty (s : string) : bool :=
  match s with EmptyString => false | String _ _ => true end.

End Str.

(** ** The libraries the module calls *)

(** Modelled from the spec: [slugify] is the npm package of that name, not a
    file of this repository.  The glossary calls a slug the lowercase,
    hyphen-separated, URL-safe transformation of a title; the definition
    follows the algorithm of version 1.6 of the package for the options the
    call passes,
    [{ lower: true, strict: true }], with the default replacement (a hyphen),
    the default [trim] and no locale. *)
Module Slugify.

(** The entries of the package's character table for code units below 256. *)
Definition charMap (c : ascii) : option string :=
  match N_of_ascii c with
  | 36 => Some "dollar" | 37 => Some "percent" | 38 => Some "and"
  | 60 => Some "less" | 62 => Some "greater" | 124 => Some "or"
  | 162 => Some "cent" | 163 => Some "pound" | 164 => Some "currency"
  | 165 => Some "yen" | 169 => Some "(c)" | 170 => Some "a"
  | 174 => Some "(r)" | 186 => Some "o"
  | 192 | 193 | 194 | 195 | 196 | 197 => Some "A"
  | 198 => Some "AE" | 199 => Some "C"
  | 200 | 201 | 202 | 203 => Some "E"
  | 204 | 205 | 206 | 207 => Some "I"
  | 208 => Some "D" | 209 => Some "N"
  | 210 | 211 | 212 | 213 | 214 | 216 => Some "O"
  | 217 | 218 | 219 | 220 => Some "U"
  | 221 => Some "Y" | 222 => Some "TH" | 223 => Some "ss"
  | 224 | 225 | 226 | 227 | 228 | 229 => Some "a"
  | 230 => Some "ae" | 231 => Some "c"
  | 232 | 233 | 234 | 235 => Some "e"
  | 236 | 237 | 238 | 239 => Some "i"
  | 240 => Some "d" | 241 => Some "n"
  | 242 | 243 | 244 | 245 | 246 | 248 => Some "o"
  | 249 | 250 | 251 | 252 => Some "u"
  | 253 | 255 => Some "y" | 254 => Some "th"
  | _ => None
  end%N.

(** [[A-Za-z0-9]] *)
Definition is_alnum (c : ascii) : bool :=
  let n := N_of_ascii c in
  ((48 <=? n) && (n <=? 57) || (65 <=? n) && (n <=? 90) ||
   (97 <=? n) && (n <=? 122))%N.

(** The class the default [remove] expression keeps: [\w], [\s] and
    dollar, star, underscore, plus, tilde, dot, the two parentheses, the two
    quotes, exclamation mark, hyphen, colon and at sign. *)
Definition is_allowed (c : ascii) : bool :=
  is_alnum c || Str.is_space c ||
  existsb (N.eqb (N_of_ascii c))
    [95; 36; 42; 43; 126; 46; 40; 41; 39; 34; 33; 45; 58; 64]%N.

Fixpoint keep (f : ascii -> bool) (s : string) : string :=
  match s with
  | EmptyString => EmptyString
  | String c r => if f c then String c (keep f r) else keep f r
  end.

(** What one character of the input appends to the result. *)
Definition appendChar (c : ascii) : string :=
  let a := match charMap c with Some r => r | None => String c EmptyString end in
  let a := if String.eqb a "-" then " " else a in
  keep is_allowed a.

Fixpoint mapChars (s : string) : string :=
  match s with
  | EmptyString => EmptyString
  | String c r => appendChar c ++ mapChars r
  end.

(** [slug.replace(/\s+/g, "-")]; [in_run] tells that the previous character
    was white space already replaced. *)
Fixpoint hyphenate (in_run : bool) (s : string) : string :=
  match s with
  | EmptyString => EmptyString
  | String c r =>
      if Str.is_space c
      then (if in_run then hyphenate true r else String "-" (hyphenate true r))
      else String c (hyphenate false r)
  end.

Definition slugify (title : string) : string :=
  let slug := mapChars title in
  let slug := keep (fun c => is_alnum c || Str.is_space c) slug in
  let slug := Str.trim slug in
  let slug := hyphenate false slug in
  Str.toLowerCase slug.

End Slugify.

(** Modelled from the spec: [uuid] is an npm package.  [v4] formats sixteen
    random bytes, taken here from a number [r], as RFC 4122 prescribes:
    version nibble 4, variant bits 10, lowercase hexadecimal, hyphens after
    bytes 4, 6, 8 and 10. *)
Module Uuid.

Definition hexdigit (n : N) : ascii :=
  match n with
  | 0 => "0" | 1 => "1" | 2 => "2" | 3 => "3" | 4 => "4" | 5 => "5"
  | 6 => "6" | 7 => "7" | 8 => "8" | 9 => "9" | 10 => "a" | 11 => "b"
  | 12 => "c" | 13 => "d" | 14 => "e" | _ => "f"
  end%N%char.

Definition hex2 (b : N) : string :=
  String (hexdigit (b / 16)%N) (String (hexdigit (b mod 16)%N) EmptyString).

(** Byte [i] (0 is the first) of the sixteen bytes of [r]. *)
Definition byte_at (r i : N) : N := (N.shiftr r (8 * (15 - i)) mod 256)%N.

Definition v4 (r : N) : string :=
  let b (i : N) := byte_at r i in
  let b6 := N.lor (N.land (b 6%N) 15%N) 64%N in
  let b8 := N.lor (N.land (b 8%N) 63%N) 128%N in
  hex2 (b 0%N) ++ hex2 (b 1%N) ++ hex2 (b 2%N) ++ hex2 (b 3%N) ++ "-" ++
  hex2 (b 4%N) ++ hex2 (b 5%N) ++ "-" ++
  hex2 b6 ++ hex2 (b 7%N) ++ "-" ++
  hex2 b8 ++ hex2 (b 9%N) ++ "-" ++
  hex2 (b 10%N) ++ hex2 (b 11%N) ++ hex2 (b 12%N) ++ hex2 (b 13%N) ++
  hex2 (b 14%N) ++ hex2 (b 15%N).

End Uuid.

(** ** Time values and their ISO form *)

Module Date.

Local Open Scope Z_scope.

Definition ms_per_day : Z := 86400000.

(** Year, month (1-12) and day of month of the day number [z], counted
    from 1970-01-01, in the proleptic Gregorian calendar. *)
Definition civil_from_days (z : Z) : Z * Z * Z :=
  let z := z + 719468 in
  let era := z / 146097 in
  let doe := z - era * 146097 in
  let yoe := (doe - doe / 1460 + doe / 36524 - doe / 146096) / 365 in
  let doy := doe - (365 * yoe + yoe / 4 - yoe / 100) in
  let mp := (5 * doy + 2) / 153 in
  let d := doy - (153 * mp + 2) / 5 + 1 in
  let m := if mp <? 10 then mp + 3 else mp - 9 in
  let y := yoe + era * 400 + (if m <=? 2 then 1 else 0) in
  (y, m, d).

Definition days_from_civil (y m d : Z) : Z :=
  let y := if m <=? 2 then y - 1 else y in
  let era := y / 400 in
  let yoe := y - era * 400 in
  let mp := if m <=? 2 then m + 9 else m - 3 in
  let doy := (153 * mp + 2) / 5 + d - 1 in
  let doe := yoe * 365 + yoe / 4 - yoe / 100 + doy in
  era * 146097 + doe - 719468.

Definition digit (n : Z) : ascii := ascii_of_N (48 + Z.to_N (n mod 10)).

Definition pad2 (n : Z) : string :=
  String (digit (n / 10)) (String (digit n) EmptyString).

Definition pad3 (n : Z) : string := String (digit (n / 100)) (pad2 n).

Definition pad4 (n : Z) : string := String (digit (n / 1000)) (pad3 n).

Definition pad6 (n : Z) : string :=
  String (digit (n / 100000)) (String (digit (n / 10000)) (pad4 n)).

Definition year_string (y : Z) : string :=
  if (0 <=? y) && (y <=? 9999) then pad4 y
  else (if y <? 0 then "-" else "+") ++ pad6 (Z.abs y).

(** [new Date(t).toISOString()] for a time value [t], in milliseconds since
    the epoch. *)
Definition toISOString (t : Z) : string :=
  let r := t mod ms_per_day in
  let '(y, m, d) := civil_from_days (t / ms_per_day) in
  year_string y ++ "-" ++ pad2 m ++ "-" ++ pad2 d ++ "T" ++
  pad2 (r / 3600000) ++ ":" ++ pad2 (r / 60000 mod 60) ++ ":" ++
  pad2 (r / 1000 mod 60) ++ "." ++ pad3 (r mod 1000) ++ "Z".

Definition digit_val (c : ascii) : option Z :=
  let n := N_of_ascii c in
  if ((48 <=? n) && (n <=? 57))%N then Some (Z.of_N n - 48) else None.

Fixpoint number (acc : Z) (s : string) : option Z :=
  match s with
  | EmptyString => Some acc
  | String c r =>
      match digit_val c with
      | Some v => number (10 * acc + v) r
      | None => None
      end
  end.

Definition is_leap (y : Z) : bool :=
  (y mod 4 =? 0) && (negb (y mod 100 =? 0) || (y mod 400 =? 0)).

Definition days_in_month (y m : Z) : Z :=
  if m =? 2 then (if is_leap y then 29 else 28)
  else if (m =? 4) || (m =? 6) || (m =? 9) || (m =? 11) then 30 else 31.

(** A parser for the one format [toISOString] writes with a four-digit year,
    [YYYY-MM-DDTHH:mm:ss.sssZ].  It is an instance of the parser of the
    engine, which the operations take as a parameter. *)
Definition parse_iso (s : string) : option Z :=
  let part i n := number 0 (String.substring i n s) in
  let sep i c := match String.get i s with
                 | Some c' => Ascii.eqb c c'
                 | None => false
                 end in
  if (String.length s =? 24)%nat && sep 4%nat "-"%char && sep 7%nat "-"%char &&
     sep 10%nat "T"%char && sep 13%nat ":"%char && sep 16%nat ":"%char &&
     sep 19%nat "."%char && sep 23%nat "Z"%char
  then
    match part 0%nat 4%nat, part 5%nat 2%nat, part 8%nat 2%nat,
          part 11%nat 2%nat, part 14%nat 2%nat, part 17%nat 2%nat,
          part 20%nat 3%nat with
    | Some y, Some m, Some d, Some h, Some mi, Some sec, Some ms =>
        if (1 <=? m) && (m <=? 12) && (1 <=? d) && (d <=? days_in_month y m) &&
           (h <=? 23) && (mi <=? 59) && (sec <=? 59)
        then Some (days_from_civil y m d * ms_per_day +
                   h * 3600000 + mi * 60000 + sec * 1000 + ms)
        else None
    | _, _, _, _, _, _, _ => None
    end
  else None.

End Date.

(** ** Values, posts and the world *)

(** The values a property of [postData] can hold: what the body parsers of
    the application produce.  [JObject] stands for any array or plain
    object; such a value is truthy and has none of the methods of a string.
    Of a number only its being zero is observed. *)
Inductive jsval :=
| JUndefined
| JNull
| JBool (b : bool)
| JNum (n : Z)
| JStr (s : string)
| JObject.

(** ToBoolean *)
Definition truthy (v : jsval) : bool :=
  match v with
  | JUndefined | JNull => false
  | JObject => true
  | JBool b => b
  | JNum n => negb (n =? 0)%Z
  | JStr s => Str.nonempty s
  end.

(** The argument of [createPost] and [updatePost]. *)
Module PostData.

Record t := mk { title : jsval; content : jsval; author : jsval; tags : jsval }.

End PostData.

(** A post object.  [filename] is [None] while the property is absent, as it
    is in the object [createPost] and [updatePost] serialize. *)
Module Post.

Record t := mk {
  id : string;
  title : string;
  content : string;
  author : string;
  tags : list string;
  createdAt : string;
  updatedAt : string;
  filename : option string
}.

(** [post.filename = name] *)
Definition set_filename (name : string) (p : t) : t :=
  mk (id p) (title p) (content p) (author p) (tags p)
     (createdAt p) (updatedAt p) (Some name).

End Post.

(** The text of a file, up to what [JSON.parse] makes of it: [Json p] is any
    text that parses to the post object [p], among them
    [JSON.stringify(p, null, 2)]; [Garbage] is any text on which [JSON.parse]
    throws.  A text that parses to something else than a post (an object
    without a title or without tags, a number) has no counterpart here: a
    directory with such a [.json] file is not a state of the model, and the
    properties of the operations that read the fields of the posts are
    stated for directories whose [.json] files hold posts. *)
Inductive text :=
| Garbage
| Json (p : Post.t).

(** An entry of the posts directory: a regular file, or something that
    cannot be read, written or unlinked as a file (a subdirectory). *)
Inductive entry :=
| Subdir
| File (t : text).

(** The state the operations depend on and change.  [posts_dir] is [None]
    when the directory is missing or cannot be read.  [clock k] is the [k]-th
    reading of the system clock (milliseconds since the epoch) and
    [entropy k] the [k]-th draw of sixteen random bytes. *)
Record World := mkWorld {
  posts_dir : option (gmap string entry);
  clock : nat -> Z;
  clock_reads : nat;
  entropy : nat -> N;
  entropy_draws : nat
}.

Definition set_dir (d : gmap string entry) (w : World) : World :=
  mkWorld (Some d) (clock w) (clock_reads w) (entropy w) (entropy_draws w).

(** ** The monad of asynchronous functions *)

(** What is thrown: a [TypeError], the [SyntaxError] of [JSON.parse], the
    error of a rejected file system call, the plain [Error] of [slugify]. *)
Inductive exn :=
| TypeError
| SyntaxError
| SystemError
| PlainError.

Inductive outcome (A : Type) :=
| Returns (a : A)
| Throws (e : exn).

Arguments Returns {A} a.

Arguments Throws {A} e.

Definition js (A : Type) : Type := World -> outcome A * World.

Definition ret {A} (a : A) : js A := fun w => (Returns a, w).

Definition throw {A} (e : exn) : js A := fun w => (Throws e, w).

Definition bind {A B} (m : js A) (k : A -> js B) : js B :=
  fun w =>
    match m w with
    | (Returns a, w') => k a w'
    | (Throws e, w') => (Throws e, w')
    end.

Notation "'let*' x ':=' m 'in' k" := (bind m (fun x => k))
  (at level 10, x name, m at level 100, k at level 200).

(** [try { body } catch (error) { handler }] *)
Definition try_catch {A} (body : js A) (handler : exn -> js A) : js A :=
  fun w =>
    match body w with
    | (Returns a, w') => (Returns a, w')
    | (Throws e, w') => handler e w'
    end.

(** [Promise.all(xs.map(f))]: the array of the results, or the rejection of
    the first promise that rejects. *)
Fixpoint all_map {A B} (f : A -> js B) (xs : list A) : js (list B) :=
  match xs with
  | [] => ret []
  | x :: xs' =>
      let* y := f x in
      let* ys := all_map f xs' in
      ret (y :: ys)
  end.

(** *** The file system, the clock, the random source *)

Module fs.

(** [fs.readdir(POSTS_DIR)]: the names of the entries, subdirectories
    included, in the order of the map (the system promises no order). *)
Definition readdir : js (list string) :=
  fun w =>
    match posts_dir w with
    | Some d => (Returns (map fst (map_to_list d)), w)
    | None => (Throws SystemError, w)
    end.

(** [fs.readFile(path.join(POSTS_DIR, name), "utf-8")], for a name without
    a path separator: the joined path is then the entry [name]. *)
Definition readFile (name : string) : js text :=
  fun w =>
    match posts_dir w with
    | Some d =>
        match d !! name with
        | Some (File t) => (Returns t, w)
        | Some Subdir | None => (Throws SystemError, w)
        end
    | None => (Throws SystemError, w)
    end.

(** [fs.writeFile(path.join(POSTS_DIR, name), t, "utf-8")]: creates the file
    or replaces its content.  The name has no path separator and is one the
    file system takes. *)
Definition writeFile (name : string) (t : text) : js unit :=
  fun w =>
    match posts_dir w with
    | Some d =>
        match d !! name with
        | Some Subdir => (Throws SystemError, w)
        | Some (File _) | None => (Returns tt, set_dir (<[name := File t]> d) w)
        end
    | None => (Throws SystemError, w)
    end.

(** [fs.unlink(path.join(POSTS_DIR, name))], for a name without a path
    separator. *)
Definition unlink (name : string) : js unit :=
  fun w =>
    match posts_dir w with
    | Some d =>
        match d !! name with
        | Some (File _) => (Returns tt, set_dir (delete name d) w)
        | Some Subdir | None => (Throws SystemError, w)
        end
    | None => (Throws SystemError, w)
    end.

End fs.

(** The world after one more reading of the clock, and after one more draw
    of random bytes. *)
Definition tick (w : World) : World :=
  mkWorld (posts_dir w) (clock w) (S (clock_reads w))
          (entropy w) (entropy_draws w).

Definition draw (w : World) : World :=
  mkWorld (posts_dir w) (clock w) (clock_reads w)
          (entropy w) (S (entropy_draws w)).

(** [new Date().toISOString()] *)
Definition now_iso : js string :=
  fun w => (Returns (Date.toISOString (clock w (clock_reads w))), tick w).

(** [uuidv4()] *)
Definition uuidv4 : js string :=
  fun w => (Returns (Uuid.v4 (entropy w (entropy_draws w))), draw w).

Module JSON.

Definition parse (t : text) : js Post.t :=
  match t with
  | Json p => ret p
  | Garbage => throw SyntaxError
  end.

Definition stringify (p : Post.t) : text := Json p.

End JSON.

(** [v.trim()]: a [TypeError] unless [v] is a string. *)
Definition call_trim (v : jsval) : js string :=
  match v with
  | JStr s => ret (Str.trim s)
  | _ => throw TypeError
  end.

(** [v.split(",").map(tag => tag.trim()).filter(tag => tag)] *)
Definition split_tags (s : string) : list string :=
  List.filter (fun tag => Str.nonempty tag) (map Str.trim (Str.split "," s)).

Definition call_split_tags (v : jsval) : js (list string) :=
  match v with
  | JStr s => ret (split_tags s)
  | _ => throw TypeError
  end.

(** ** The operations of [utils/fileHandler.js] *)

(** [generateFilename(title)]; [slugify] throws on an argument that is not a
    string. *)
Definition generateFilename (title : jsval) : js string :=
  match title with
  | JStr t =>
      let slug := Slugify.slugify t in
      let* u := uuidv4 in
      let uniqueId := Str.take 8 u in
      ret (slug ++ "-" ++ uniqueId ++ ".json")%string
  | _ => throw PlainError
  end.

(** [Array.prototype.sort] with a comparison function: the sort is stable,
    and [x] stays before [y] unless [cmp x y] is positive.  [cmp] returns
    [None] for NaN, which the sort takes for zero.  Insertion from the
    right gives the order every stable sort gives when the comparison is
    consistent. *)
Section Sort.

Context {A : Type} (cmp : A -> A -> option Z).

Definition goes_after (x y : A) : bool :=
  match cmp x y with
  | Some v => (0 <? v)%Z
  | None => false
  end.

Fixpoint insert_sorted (x : A) (l : list A) : list A :=
  match l with
  | [] => [x]
  | y :: l' => if goes_after x y then y :: insert_sorted x l' else x :: l
  end.

Definition sort (l : list A) : list A := foldr insert_sorted [] l.

End Sort.

Section Operations.

(** The time value of [new Date(s)] for a string [s], [None] when the date
    is invalid: the parser of the engine. *)
Variable Date_parse : string -> option Z.

(** [new Date(b.createdAt) - new Date(a.createdAt)] *)
Definition by_date_desc (a b : Post.t) : option Z :=
  match Date_parse (Post.createdAt b), Date_parse (Post.createdAt a) with
  | Some tb, Some ta => Some (tb - ta)%Z
  | _, _ => None
  end.

Definition getAllPosts : js (list Post.t) :=
  try_catch
    (let* files := fs.readdir in
     let jsonFiles := List.filter (fun file => Str.endsWith ".json" file) files in
     let* posts :=
       all_map (fun file =>
         let* content := fs.readFile file in
         let* post := JSON.parse content in
         ret (Post.set_filename (Str.replace ".json" "" file) post))
         jsonFiles in
     ret (sort by_date_desc posts))
    (fun error => ret []).

Definition getPostByFilename (filename : string) : js (option Post.t) :=
  try_catch
    (let* content := fs.readFile (filename ++ ".json")%string in
     let* post := JSON.parse content in
     ret (Some (Post.set_filename filename post)))
    (fun error => ret None).

Definition createPost (postData : PostData.t) : js Post.t :=
  let title := PostData.title postData in
  let content := PostData.content postData in
  let author := PostData.author postData in
  let tags := PostData.tags postData in
  let* id := uuidv4 in
  let* title' := call_trim title in
  let* content' := call_trim content in
  let* author' := if truthy author then call_trim author else ret "Anonymous" in
  let* tags' := if truthy tags then call_split_tags tags else ret [] in
  let* createdAt := now_iso in
  let* updatedAt := now_iso in
  let post := Post.mk id title' content' author' tags' createdAt updatedAt None in
  let* filename := generateFilename title in
  let* _ := fs.writeFile filename (JSON.stringify post) in
  ret (Post.set_filename (Str.replace ".json" "" filename) post).

Definition updatePost (filename : string) (postData : PostData.t)
  : js (option Post.t) :=
  try_catch
    (let* existingContent := fs.readFile (filename ++ ".json")%string in
     let* existingPost := JSON.parse existingContent in
     let* title :=
       if truthy (PostData.title postData)
       then call_trim (PostData.title postData)
       else ret (Post.title existingPost) in
     let* content :=
       if truthy (PostData.content postData)
       then call_trim (PostData.content postData)
       else ret (Post.content existingPost) in
     let* author :=
       if truthy (PostData.author postData)
       then call_trim (PostData.author postData)
       else ret (Post.author existingPost) in
     let* tags :=
       if truthy (PostData.tags postData)
       then call_split_tags (PostData.tags postData)
       else ret (Post.tags existingPost) in
     let* updatedAt := now_iso in
     let updatedPost :=
       Post.mk (Post.id existingPost) title content author tags
               (Post.createdAt existingPost) updatedAt
               (Post.filename existingPost) in
     let* _ := fs.writeFile (filename ++ ".json")%string (JSON.stringify updatedPost) in
     ret (Some (Post.set_filename filename updatedPost)))
    (fun error => ret None).

Definition deletePost (filename : string) : js bool :=
  try_catch
    (let* _ := fs.unlink (filename ++ ".json")%string in
     ret true)
    (fun error => ret false).

Definition searchPosts (query : string) : js (list Post.t) :=
  let* allPosts := getAllPosts in
  let lowerQuery := Str.toLowerCase query in
  ret (List.filter (fun post =>
         Str.includes lowerQuery (Str.toLowerCase (Post.title post)) ||
         Str.includes lowerQuery (Str.toLowerCase (Post.content post)) ||
         existsb (fun tag => Str.includes lowerQuery (Str.toLowerCase tag))
                 (Post.tags post))
       allPosts).

Definition getPostsByTag (tag : string) : js (list Post.t) :=
  let* allPosts := getAllPosts in
  ret (List.filter (fun post =>
         existsb (fun t => String.eqb (Str.toLowerCase t) (Str.toLowerCase tag))
                 (Post.tags post))
       allPosts).

End Operations.

(** ** The request handlers of [routes/posts.js] *)

(** A handler receives the parts of the request it reads ([req.params],
    [req.query], [req.body]) and returns what it does with the response.
    The locals a view is rendered with, one constructor for each shape the
    handlers pass to [res.render]; the title of the view [new] is the same
    constant in both handlers that render it and is not kept. *)
Inductive page :=
| IndexPage (title : string) (posts : list Post.t) (message : jsval)
            (searchQuery currentTag : option string)
| NewPage (error : option string) (formData : option PostData.t)
| ShowPage (title : string) (post : Post.t) (message : jsval)
| EditPage (title : string) (post : Post.t) (overrides : option PostData.t)
           (error : option string)
| ErrorPage (title message : string) (status : nat).

(** The body of a JSON answer: [success] is true for the first two and false
    for the last two. *)
Inductive api_body :=
| ApiPosts (data : list Post.t)
| ApiPost (data : Post.t)
| ApiError (error : string)
| ApiFailure (e : exn).

(** What a handler does with the response: render a view with a status,
    redirect, send JSON with a status, or hand an error to [next]. *)
Inductive response :=
| Render (status : nat) (p : page)
| Redirect (url : string)
| SendJson (status : nat) (body : api_body)
| Next (e : exn).

(** [v || null] *)
Definition or_null (v : jsval) : jsval := if truthy v then v else JNull.

(** The double quote, for the titles that quote the query or the tag. *)
Definition dquote : string := String (ascii_of_nat 34) EmptyString.

(** [res.status(404).render("error", ...)] *)
Definition not_found_page (message : string) : response :=
  Render 404 (ErrorPage "404 - Post Not Found" message 404).

(** [posts.length === 0 ? text : null] *)
Definition message_if_empty (posts : list Post.t) (text : string) : jsval :=
  match posts with
  | [] => JStr text
  | _ :: _ => JNull
  end.

Section Routes.

Variable Date_parse : string -> option Z.




(** [router.get("/tag/:tag")] with [req.params.tag]. *)
Definition byTag (tag : string) : js response :=
  try_catch
    (let* posts := getPostsByTag Date_parse tag in
     ret (Render 200
            (IndexPage ("Posts tagged with " ++ dquote ++ tag ++ dquote) posts
                       (message_if_empty posts "No posts found with this tag.")
                       None (Some tag))))
    (fun error => ret (Next error)).

End Routes.


(** [post.filename] in a template literal; [undefined] prints as such. *)
Definition filename_text (p : Post.t) : string :=
  match Post.filename p with
  | Some f => f
  | None => "undefined"
  end.

(** [router.post("/posts")] with [req.body]. *)
Definition create (body : PostData.t) : js response :=
  try_catch
    (if negb (truthy (PostData.title body)) || negb (truthy (PostData.content body))
     then ret (Render 200 (NewPage (Some "Title and content are required!")
                                   (Some body)))
     else
       let* post := createPost body in
       ret (Redirect ("/posts/" ++ filename_text post ++
                      "?message=Post created successfully!")))
    (fun error => ret (Next error)).

(** [router.get("/posts/:filename")] with [req.query.message]. *)
Definition show (filename : string) (message : jsval) : js response :=
  try_catch
    (let* post := getPostByFilename filename in
     match post with
     | None =>
         ret (not_found_page "The blog post you are looking for does not exist.")
     | Some p => ret (Render 200 (ShowPage (Post.title p) p (or_null message)))
     end)
    (fun error => ret (Next error)).


(** [router.post("/posts/:filename")] with [req.body].  When validation fails
    the handler reads [post.title] of what [getPostByFilename] returned, which
    throws on [null]; the view gets the post and the body that overrides it. *)
Definition update (filename : string) (body : PostData.t) : js response :=
  try_catch
    (if negb (truthy (PostData.title body)) || negb (truthy (PostData.content body))
     then
       let* post := getPostByFilename filename in
       match post with
       | None => throw TypeError
       | Some p =>
           ret (Render 200 (EditPage ("Edit: " ++ Post.title p) p (Some body)
                                     (Some "Title and content are required!")))
       end
     else
       let* updatedPost := updatePost filename body in
       match updatedPost with
       | None =>
           ret (not_found_page
                  "The blog post you are trying to update does not exist.")
       | Some _ =>
           ret (Redirect ("/posts/" ++ filename ++
                          "?message=Post updated successfully!"))
       end)
    (fun error => ret (Next error)).


Section Api.

Variable Date_parse : string -> option Z.


End Api.


(** * Part II: the vocabulary of the properties *)

(** ** Names *)

Module Names.
Import Str.

(** Every character of [s] satisfies [f]. *)
Fixpoint all_chars (f : ascii -> bool) (s : string) : bool :=
  match s with
  | EmptyString => true
  | String c r => f c && all_chars f r
  end.

(** The characters of a slug: [a-z], [0-9] and the hyphen. *)
Definition slug_char (c : ascii) : bool :=
  let n := N_of_ascii c in
  ((48 <=? n) && (n <=? 57) || (97 <=? n) && (n <=? 122) || (n =? 45))%N.

Definition no_dot (c : ascii) : bool := negb (Ascii.eqb c ".").

(** The name [generateFilename] builds from a slug and a unique id. *)
Definition file_name (title : string) (r : N) : string :=
  Slugify.slugify title ++ "-" ++ take 8 (Uuid.v4 r) ++ ".json".

(** The handle of that file. *)
Definition handle (title : string) (r : N) : string :=
  Slugify.slugify title ++ "-" ++ take 8 (Uuid.v4 r).

End Names.

(** ** Dates and order *)

Section Dating.
Context {A : Type} (date : A -> option Z).

(** The comparison function of [getAllPosts], for any way of dating. *)
Definition newest_first (a b : A) : option Z :=
  match date b, date a with
  | Some tb, Some ta => Some (tb - ta)%Z
  | _, _ => None
  end.

(** [a] is dated no earlier than [b]. *)
Definition not_older (a b : A) : Prop :=
  exists ta tb, date a = Some ta /\ date b = Some tb /\ (tb <= ta)%Z.

End Dating.

(** ** The stored collection *)

(** The files [getAllPosts] looks at, the handle it derives from a file
    name, and the post it makes of a file. *)
Definition is_json (file : string) : bool := Str.endsWith ".json" file.

Definition handle_of (file : string) : string := Str.replace ".json" "" file.

Definition json_files (d : gmap string entry) : list string :=
  List.filter is_json (map fst (map_to_list d)).

Definition post_of (d : gmap string entry) (file : string) : option Post.t :=
  match d !! file with
  | Some (File (Json p)) => Some (Post.set_filename (handle_of file) p)
  | _ => None
  end.

(** The posts of the directory, one for each [.json] file that can be read
    and parsed, each with its handle. *)
Definition stored_posts (d : gmap string entry) : list Post.t :=
  omap (post_of d) (json_files d).

(** Reading and parsing one file of the listing. *)
Definition load_post (file : string) : js Post.t :=
  let* content := fs.readFile file in
  let* post := JSON.parse content in
  ret (Post.set_filename (Str.replace ".json" "" file) post).

(** Every [.json] entry of the directory is a file that parses. *)
Definition every_file_parses (d : gmap string entry) : Prop :=
  forall file e, d !! file = Some e -> is_json file = true ->
                 exists p, e = File (Json p).

(** Some [.json] entry of the directory cannot be read or does not parse. *)
Definition some_file_fails (d : gmap string entry) : Prop :=
  exists file e, d !! file = Some e /\ is_json file = true /\
                 (e = Subdir \/ e = File Garbage).

(** The test that decides between the two. *)
Definition all_readable (d : gmap string entry) : bool :=
  forallb (fun file => bool_decide (is_Some (post_of d file))) (json_files d).

(** ** Single posts *)

(** The value [v ? v.trim() : old] takes when [v] is a string or falsy. *)
Definition trimmed_or (v : jsval) (old : string) : string :=
  match v with
  | JStr (String _ _ as s) => Str.trim s
  | _ => old
  end.

(** The value of [v ? v.split(",").map(..).filter(..) : old] in that case. *)
Definition tags_or (v : jsval) (old : list string) : list string :=
  match v with
  | JStr (String _ _ as s) => split_tags s
  | _ => old
  end.

(** A string, or a value that counts as absent. *)
Definition string_or_falsy (v : jsval) : bool :=
  match v with
  | JStr _ => true
  | _ => negb (truthy v)
  end.

(** [typeof v === "string"] *)
Definition is_string (v : jsval) : bool :=
  match v with JStr _ => true | _ => false end.

(** [undefined] or [null] *)
Definition absent (v : jsval) : bool :=
  match v with JUndefined | JNull => true | _ => false end.

(** Valid post data: the title and the content are strings, the author and
    the tags are strings or count as absent. *)
Definition valid_data (data : PostData.t) : bool :=
  is_string (PostData.title data) && is_string (PostData.content data) &&
  string_or_falsy (PostData.author data) && string_or_falsy (PostData.tags data).

(** The directory holds regular files only. *)
Definition no_subdir (d : gmap string entry) : bool :=
  forallb (fun ne => match snd ne with Subdir => false | File _ => true end)
          (map_to_list d).

(** The post [updatePost] writes over [old]. *)
Definition merged (old : Post.t) (data : PostData.t) (updatedAt : string)
  : Post.t :=
  Post.mk (Post.id old)
          (trimmed_or (PostData.title data) (Post.title old))
          (trimmed_or (PostData.content data) (Post.content old))
          (trimmed_or (PostData.author data) (Post.author old))
          (tags_or (PostData.tags data) (Post.tags old))
          (Post.createdAt old) updatedAt (Post.filename old).

(** ** Matching *)

(** Equal up to case. *)
Definition ci_equal (a b : string) : Prop :=
  Str.toLowerCase a = Str.toLowerCase b.

(** [q] occurs in [s] up to case: some substring of [s] equals [q] up to
    case. *)
Definition ci_substring (q s : string) : Prop :=
  exists a m b, s = (a ++ m ++ b)%string /\ ci_equal m q.

(** The query occurs in the title, in the content or in a tag. *)
Definition query_occurs (q : string) (p : Post.t) : Prop :=
  ci_substring q (Post.title p) \/ ci_substring q (Post.content p) \/
  exists tag, tag ∈ Post.tags p /\ ci_substring q tag.

(** The post carries the tag, up to case. *)
Definition tagged (tag : string) (p : Post.t) : Prop :=
  exists t, t ∈ Post.tags p /\ ci_equal t tag.

(** ** Handles *)

(** A path separator, of either convention. *)
Definition is_separator (c : ascii) : bool :=
  Ascii.eqb c "/" || Ascii.eqb c (ascii_of_nat 92).

(** A handle without a path separator: [path.join(POSTS_DIR, h + ".json")]
    is then the entry of that name in the posts directory.  With a separator
    the joined path is normalised and names an entry of another name ([./h]
    is the file of [h]) or a file elsewhere. *)
Definition plain_handle (h : string) : bool :=
  Names.all_chars (fun c => negb (is_separator c)) h.

(** There is no post to read under the handle: the directory is missing, or
    it has no entry of that name, or the entry is a subdirectory, or it is a
    file that does not parse. *)
Definition no_post_at (h : string) (w : World) : Prop :=
  match posts_dir w with
  | None => True
  | Some d =>
      d !! (h ++ ".json")%string = None \/
      d !! (h ++ ".json")%string = Some Subdir \/
      d !! (h ++ ".json")%string = Some (File Garbage)
  end.

(** ** Well-formed posts and bodies *)

(** The string has no white space at either end. *)
Definition trimmed (s : string) : Prop := Str.trim s = s.

(** The string does not start with white space. *)
Definition head_clean (s : string) : bool :=
  match s with
  | EmptyString => true
  | String c _ => negb (Str.is_space c)
  end.

Definition no_comma (c : ascii) : bool := negb (Ascii.eqb c ",").

(** A tag as the module stores it: not empty, trimmed, without a comma. *)
Definition clean_tag (t : string) : Prop :=
  t <> "" /\ trimmed t /\ Names.all_chars no_comma t = true.

(** A post as the module stores it: the title, the content and the author
    are trimmed and every tag is clean. *)
Definition clean_post (p : Post.t) : Prop :=
  trimmed (Post.title p) /\ trimmed (Post.content p) /\
  trimmed (Post.author p) /\ Forall clean_tag (Post.tags p).

(** A value that is taken for present and is not a string: [trim] and
    [split] are called on it and are not there. *)
Definition ill_typed (v : jsval) : bool := truthy v && negb (is_string v).

(** The check of the two handlers that take a body: neither [!title] nor
    [!content]. *)
Definition passes_validation (body : PostData.t) : bool :=
  truthy (PostData.title body) && truthy (PostData.content body).


(** What one entry of the directory adds to the stored collection. *)
Definition contribution (ne : string * entry) : option Post.t :=
  if is_json (fst ne)
  then match snd ne with
       | File (Json p) => Some (Post.set_filename (handle_of (fst ne)) p)
       | _ => None
       end
  else None.

(** ** Sample data *)

(** A clock that advances by one second from reading to reading, and a
    source of random bytes, both given by the table of their first values. *)
Definition sample_clock (k : nat) : Z :=
  nth k [1700000000000;
         1700000001000;
         1700000002000;
         1700000003000;
         1700000004000;
         1700000005000]%Z
      1700000006000%Z.

Definition sample_entropy (k : nat) : N :=
  nth k [0x123456789abcdef0123456789abcdef;
         0x2468acf13579bde02468acf13579bde;
         0x369d0369d0369cd0369d0369d0369cd;
         0x48d159e26af37bc048d159e26af37bc;
         0x5b05b05b05b05ab05b05b05b05b05ab;
         0x6d3a06d3a06d39a06d3a06d3a06d39a]%N
      0x7f6e5d4c3b2a18907f6e5d4c3b2a189%N.

Definition world_with (d : option (gmap string entry)) : World :=
  mkWorld d sample_clock 0 sample_entropy 0.

Definition hello_post : Post.t :=
  Post.mk "6f1c2a9e-3b4d-4c5e-8f60-718293a4b5c6" "Hello World" "First entry"
          "Anonymous" ["Go"] "2024-01-01T10:00:00.000Z"
          "2024-01-01T10:00:00.000Z" None.

Definition second_post : Post.t :=
  Post.mk "0a1b2c3d-4e5f-4a6b-9c7d-8e9fa0b1c2d3" "Second" "We say hello again"
          "Ada" ["golang"; "notes"] "2024-02-01T10:00:00.000Z"
          "2024-02-03T08:30:00.000Z" None.

Definition good_dir : gmap string entry :=
  <["hello-world-6f1c2a9e.json" := File (Json hello_post)]>
    (<["second-0a1b2c3d.json" := File (Json second_post)]>
       (<["README.md" := File Garbage]> ∅)).

(** The directory of the search scenario: two more posts, one that carries
    the tag [Hello] and one without the word. *)
Definition tagged_post : Post.t :=
  Post.mk "9d8c7b6a-5f4e-4d3c-8b2a-190817263544" "Third" "Tagged entry"
          "Anonymous" ["Hello"] "2024-03-01T10:00:00.000Z"
          "2024-03-01T10:00:00.000Z" None.

Definition plain_post : Post.t :=
  Post.mk "4b3a2918-0716-4253-b4a5-c6d7e8f90a1b" "Other" "Nothing to see"
          "Anonymous" ["misc"] "2024-04-01T10:00:00.000Z"
          "2024-04-01T10:00:00.000Z" None.

Definition search_dir : gmap string entry :=
  <["third-9d8c7b6a.json" := File (Json tagged_post)]>
    (<["other-4b3a2918.json" := File (Json plain_post)]> good_dir).


(** The post data of the scenario of the specification: a title, a
    content, no author, no tags. *)
Definition first_post_data : PostData.t :=
  PostData.mk (JStr "My First Post") (JStr "Hello there") JUndefined JUndefined.

(** A world whose clock stands still: everything happens within one
    millisecond. *)
Definition frozen_world : World :=
  mkWorld (Some ∅) (fun _ => 1700000000000%Z) 0 sample_entropy 0.

Definition note_data : PostData.t :=
  PostData.mk (JStr "Release notes") (JStr "Version one") (JStr "Ada")
              (JStr "news, release").

Definition note_created : Post.t :=
  Post.mk "01234567-89ab-4def-8123-456789abcdef" "Release notes" "Version one"
          "Ada" ["news"; "release"] "2023-11-14T22:13:20.000Z"
          "2023-11-14T22:13:20.000Z" (Some "release-notes-02468acf").

Definition note_revision : PostData.t :=
  PostData.mk (JStr " Release notes, revised ") JUndefined JUndefined JUndefined.

Definition note_updated : Post.t :=
  Post.mk "01234567-89ab-4def-8123-456789abcdef" "Release notes, revised"
          "Version one" "Ada" ["news"; "release"] "2023-11-14T22:13:20.000Z"
          "2023-11-14T22:13:20.000Z" (Some "release-notes-02468acf").

(** The world after three posts were created, one after the other, and the
    directory it then has. *)
Definition three_posts_world : World :=
  let create t c w :=
    snd (createPost (PostData.mk (JStr t) (JStr c) JUndefined JUndefined) w) in
  create "Gamma" "third"
    (create "Beta" "second" (create "Alpha" "first" (world_with (Some ∅)))).

Definition alpha_post : Post.t :=
  Post.mk "01234567-89ab-4def-8123-456789abcdef" "Alpha" "first" "Anonymous" []
          "2023-11-14T22:13:20.000Z" "2023-11-14T22:13:21.000Z" None.

Definition beta_post : Post.t :=
  Post.mk "0369d036-9d03-49cd-8369-d0369d0369cd" "Beta" "second" "Anonymous" []
          "2023-11-14T22:13:22.000Z" "2023-11-14T22:13:23.000Z" None.

Definition gamma_post : Post.t :=
  Post.mk "05b05b05-b05b-45ab-85b0-5b05b05b05ab" "Gamma" "third" "Anonymous" []
          "2023-11-14T22:13:24.000Z" "2023-11-14T22:13:25.000Z" None.

Definition three_posts_dir : gmap string entry :=
  <["gamma-06d3a06d.json" := File (Json gamma_post)]>
    (<["beta-048d159e.json" := File (Json beta_post)]>
       (<["alpha-02468acf.json" := File (Json alpha_post)]> ∅)).

Definition good_world : World := world_with (Some good_dir).

Definition hello_revision : PostData.t :=
  PostData.mk (JStr " Hello again ") JUndefined (JStr "") (JStr "go, rocq").

Definition only_a_comma : PostData.t :=
  PostData.mk JUndefined JUndefined JUndefined (JStr ",").

(** Bodies of the forms: a title of blanks only, tags sent as an array, and
    a revision with a title and a content. *)
Definition blank_title_data : PostData.t :=
  PostData.mk (JStr "   ") (JStr "Body") JUndefined JUndefined.

Definition array_tags_data : PostData.t :=
  PostData.mk (JStr "Title") (JStr "Body") JUndefined JObject.

Definition full_revision : PostData.t :=
  PostData.mk (JStr "Hello again") (JStr "Revised entry") JUndefined JUndefined.

(** * Part III: properties *)

(** ** Evaluations *)

Example trim_ex : Str.trim "  My First Post  " = "My First Post".
Proof. reflexivity. Qed.

Example split_ex : Str.split "," "a, b,,c" = ["a"; " b"; ""; "c"].
Proof. reflexivity. Qed.

Example replace_ex : Str.replace ".json" "" "x.jsonb.json" = "xb.json".
Proof. reflexivity. Qed.

Example includes_ex :
  Str.includes "hello" (Str.toLowerCase "Say HELLO") = true /\
  Str.includes "" "abc" = true /\ Str.includes "abd" "abc" = false.
Proof. repeat split; reflexivity. Qed.

Example slugify_ex1 : Slugify.slugify "My First Post" = "my-first-post".
Proof. reflexivity. Qed.

Example slugify_ex2 :
  Slugify.slugify "  Rock & Roll -- v2.0 (final)!  " = "rock-and-roll-v20-final".
Proof. reflexivity. Qed.

Example uuid_ex :
  Uuid.v4 0x0123456789abcdef0123456789abcdef%N =
  "01234567-89ab-4def-8123-456789abcdef".
Proof. reflexivity. Qed.

Example toISOString_ex1 : Date.toISOString 0%Z = "1970-01-01T00:00:00.000Z".
Proof. reflexivity. Qed.

Example toISOString_ex2 :
  Date.toISOString 1709210096789%Z = "2024-02-29T12:34:56.789Z".
Proof. reflexivity. Qed.

Example toISOString_ex3 :
  Date.toISOString 253402300799999%Z = "9999-12-31T23:59:59.999Z" /\
  Date.toISOString (-1)%Z = "1969-12-31T23:59:59.999Z".
Proof. split; reflexivity. Qed.

Example parse_iso_ex :
  Date.parse_iso "2024-02-29T12:34:56.789Z" = Some 1709210096789%Z /\
  Date.parse_iso "2023-02-29T12:34:56.789Z" = None /\
  Date.parse_iso "yesterday" = None.
Proof. repeat split; reflexivity. Qed.

(** ** Strings *)

Module StrFacts.
Import Str Names.

Lemma append_nil_r (s : string) : (s ++ "")%string = s.
Proof. induction s as [|c s IH]; simpl; [reflexivity | now rewrite IH]. Qed.

Lemma append_assoc (a b c : string) :
  ((a ++ b) ++ c)%string = (a ++ (b ++ c))%string.
Proof. induction a as [|x a IH]; simpl; [reflexivity | now rewrite IH]. Qed.

Lemma all_chars_app f (a b : string) :
  all_chars f (a ++ b)%string = all_chars f a && all_chars f b.
Proof.
  induction a as [|c a IH]; simpl; [reflexivity|].
  rewrite IH. now rewrite andb_assoc.
Qed.

Lemma all_chars_mono (f g : ascii -> bool) (s : string) :
  (forall c, f c = true -> g c = true) ->
  all_chars f s = true -> all_chars g s = true.
Proof.
  intros Hfg. induction s as [|c s IH]; simpl; [reflexivity|].
  rewrite !andb_true_iff. intros [Hc Hs]. split; auto.
Qed.

Lemma startsWith_spec (p s : string) :
  startsWith p s = true <-> exists r, s = (p ++ r)%string.
Proof.
  revert s. induction p as [|a p IH]; intros s; simpl.
  - split; [intros _; now exists s | reflexivity].
  - destruct s as [|b s].
    + split; [discriminate | intros [r Hr]; discriminate].
    + rewrite andb_true_iff, Ascii.eqb_eq, IH. split.
      * intros [-> [r ->]]. now exists r.
      * intros [r Hr]. injection Hr as -> ->. split; [reflexivity | now exists r].
Qed.

Lemma includes_spec (p s : string) :
  includes p s = true <-> exists a b, s = (a ++ p ++ b)%string.
Proof.
  induction s as [|c s IH].
  - simpl. rewrite orb_false_r, startsWith_spec. split.
    + intros [r Hr]. now exists ""%string, r.
    + intros [a [b Hab]]. destruct a; [now exists b | discriminate].
  - cbn [includes]. rewrite orb_true_iff, startsWith_spec, IH. split.
    + intros [[r Hr] | [a [b Hab]]].
      * now exists ""%string, r.
      * exists (String c a), b. simpl. now rewrite Hab.
    + intros [a [b Hab]]. destruct a as [|x a].
      * left. now exists b.
      * right. simpl in Hab. injection Hab as -> ->. now exists a, b.
Qed.

Lemma toLowerCase_app (a b : string) :
  toLowerCase (a ++ b) = (toLowerCase a ++ toLowerCase b)%string.
Proof. induction a as [|c a IH]; simpl; [reflexivity | now rewrite IH]. Qed.

(** A split of the lowered string comes from a split of the string. *)
Lemma toLowerCase_split (s x y : string) :
  toLowerCase s = (x ++ y)%string ->
  exists a b, s = (a ++ b)%string /\ toLowerCase a = x /\ toLowerCase b = y.
Proof.
  revert s. induction x as [|c x IH]; intros s H.
  - exists ""%string, s. auto.
  - destruct s as [|d s]; [discriminate|].
    simpl in H. injection H as Hc Hs.
    destruct (IH _ Hs) as (a & b & -> & Ha & Hb).
    exists (String d a), b. simpl. now rewrite Hc, Ha, Hb.
Qed.

Lemma length_toLowerCase (s : string) :
  String.length (toLowerCase s) = String.length s.
Proof. induction s as [|c s IH]; simpl; [reflexivity | now rewrite IH]. Qed.

Lemma drop_app (a b : string) : drop (String.length a) (a ++ b) = b.
Proof. induction a as [|c a IH]; simpl; [now destruct b | exact IH]. Qed.

(** Removing [".json"] from a name whose stem has no dot removes the
    extension. *)
Lemma replace_json_stem (s : string) :
  all_chars (fun c => negb (Ascii.eqb c ".")) s = true ->
  replace ".json" "" (s ++ ".json") = s.
Proof.
  induction s as [|c s IH]; [reflexivity|].
  cbn [all_chars]. rewrite andb_true_iff. intros [Hc Hs].
  change (String c s ++ ".json")%string with (String c (s ++ ".json")).
  cbn [replace startsWith].
  rewrite Ascii.eqb_sym. apply negb_true_iff in Hc. rewrite Hc. cbn [andb].
  now rewrite (IH Hs).
Qed.

Lemma endsWith_app (p s : string) : endsWith p (s ++ p) = true.
Proof.
  induction s as [|c s IH].
  - simpl. destruct p; simpl; [reflexivity|].
    now rewrite Ascii.eqb_refl, String.eqb_refl.
  - change (String c s ++ p)%string with (String c (s ++ p)).
    cbn [endsWith]. rewrite IH. apply orb_true_r.
Qed.

Lemma all_chars_trimStart f (s : string) :
  all_chars f s = true -> all_chars f (trimStart s) = true.
Proof.
  induction s as [|c s IH]; simpl; [reflexivity|].
  rewrite andb_true_iff. intros [Hc Hs].
  destruct (is_space c); [auto | simpl; now rewrite Hc, Hs].
Qed.

Lemma all_chars_trimEnd f (s : string) :
  all_chars f s = true -> all_chars f (trimEnd s) = true.
Proof.
  induction s as [|c s IH]; simpl; [reflexivity|].
  rewrite andb_true_iff. intros [Hc Hs]. specialize (IH Hs).
  destruct (trimEnd s) as [|d r].
  - destruct (is_space c); simpl; [reflexivity | now rewrite Hc].
  - cbn [all_chars] in *. now rewrite Hc, IH.
Qed.

Lemma all_chars_trim f (s : string) :
  all_chars f s = true -> all_chars f (trim s) = true.
Proof. intros H. now apply all_chars_trimEnd, all_chars_trimStart. Qed.

End StrFacts.

(** ** Slugs, identifiers and file names *)

Module NameFacts.
Import Str Names StrFacts.

Ltac by_cases_on_char c :=
  destruct c as [[] [] [] [] [] [] [] []]; vm_compute; intros;
  solve [reflexivity | discriminate | assumption].

Lemma lower_char_slug (c : ascii) :
  Slugify.is_alnum c || Ascii.eqb c "-" = true -> slug_char (lower_char c) = true.
Proof. by_cases_on_char c. Qed.

Lemma slug_char_no_dot (c : ascii) : slug_char c = true -> no_dot c = true.
Proof. by_cases_on_char c. Qed.

Lemma all_chars_keep f (s : string) : all_chars f (Slugify.keep f s) = true.
Proof.
  induction s as [|c s IH]; simpl; [reflexivity|].
  destruct (f c) eqn:E; simpl; [now rewrite E | exact IH].
Qed.

Lemma all_chars_hyphenate (b : bool) (s : string) :
  all_chars (fun c => Slugify.is_alnum c || is_space c) s = true ->
  all_chars (fun c => Slugify.is_alnum c || Ascii.eqb c "-")
            (Slugify.hyphenate b s) = true.
Proof.
  revert b. induction s as [|c s IH]; intros b; simpl; [reflexivity|].
  rewrite andb_true_iff. intros [Hc Hs].
  destruct (is_space c) eqn:E.
  - destruct b; simpl; auto.
  - rewrite orb_false_r in Hc. simpl. rewrite Hc. simpl. auto.
Qed.

Lemma all_chars_toLowerCase (f g : ascii -> bool) (s : string) :
  (forall c, f c = true -> g (lower_char c) = true) ->
  all_chars f s = true -> all_chars g (toLowerCase s) = true.
Proof.
  intros Hfg. induction s as [|c s IH]; simpl; [reflexivity|].
  rewrite !andb_true_iff. intros [Hc Hs]. auto.
Qed.

(** A slug is made of lowercase letters, digits and hyphens only. *)
Lemma slugify_alphabet (title : string) :
  all_chars slug_char (Slugify.slugify title) = true.
Proof.
  unfold Slugify.slugify.
  apply all_chars_toLowerCase with
    (f := fun c => Slugify.is_alnum c || Ascii.eqb c "-").
  - exact lower_char_slug.
  - apply all_chars_hyphenate, all_chars_trim, all_chars_keep.
Qed.

Lemma hexdigit_slug (n : N) : slug_char (Uuid.hexdigit n) = true.
Proof.
  destruct n as [|p]; [reflexivity|].
  do 4 (try (destruct p as [p|p|]; try reflexivity)).
Qed.

(** The first eight characters of an identifier are hexadecimal digits. *)
Lemma uniqueId_alphabet (r : N) :
  all_chars slug_char (take 8 (Uuid.v4 r)) = true.
Proof.
  unfold Uuid.v4, Uuid.hex2, take.
  cbv beta iota zeta delta [String.append String.substring all_chars].
  now rewrite !hexdigit_slug.
Qed.

Lemma v4_nonempty (r : N) : Uuid.v4 r <> "".
Proof.
  unfold Uuid.v4, Uuid.hex2.
  cbv beta iota zeta delta [String.append]. discriminate.
Qed.

Lemma file_name_handle (title : string) (r : N) :
  file_name title r = (handle title r ++ ".json")%string.
Proof. unfold file_name, handle. now rewrite !append_assoc. Qed.

Lemma handle_no_dot (title : string) (r : N) :
  all_chars no_dot (handle title r) = true.
Proof.
  unfold handle. apply all_chars_mono with (f := slug_char).
  - exact slug_char_no_dot.
  - rewrite !all_chars_app, slugify_alphabet, uniqueId_alphabet. reflexivity.
Qed.

(** Dropping the extension of a generated name gives back the handle. *)
Lemma replace_file_name (title : string) (r : N) :
  replace ".json" "" (file_name title r) = handle title r.
Proof.
  rewrite file_name_handle. apply replace_json_stem, handle_no_dot.
Qed.

Lemma startsWith_handle (title : string) (r : N) :
  startsWith (Slugify.slugify title ++ "-") (handle title r) = true.
Proof.
  apply startsWith_spec. exists (take 8 (Uuid.v4 r)).
  unfold handle. now rewrite append_assoc.
Qed.

End NameFacts.

(** ** Sorting *)

Section SortFacts.
Context {A : Type} (date : A -> option Z).

Lemma insert_sorted_perm (cmp : A -> A -> option Z) (x : A) (l : list A) :
  insert_sorted cmp x l ≡ₚ x :: l.
Proof.
  induction l as [|y l IH]; simpl; [reflexivity|].
  destruct (goes_after cmp x y); [|reflexivity].
  rewrite IH. apply Permutation_swap.
Qed.

Lemma sort_perm (cmp : A -> A -> option Z) (l : list A) : sort cmp l ≡ₚ l.
Proof.
  induction l as [|x l IH]; simpl; [reflexivity|].
  unfold sort in IH. now rewrite insert_sorted_perm, IH.
Qed.

Lemma insert_sorted_sorted (x : A) (l : list A) :
  is_Some (date x) -> Forall (fun a => is_Some (date a)) l ->
  StronglySorted (not_older date) l ->
  StronglySorted (not_older date) (insert_sorted (newest_first date) x l).
Proof.
  intros [tx Hx] Hl Hs. induction Hs as [|y l Hs IH Hy]; simpl.
  - repeat constructor.
  - apply Forall_cons in Hl as [[ty Hty] Hl].
    unfold goes_after, newest_first. rewrite Hty, Hx.
    destruct (Z.ltb_spec 0 (ty - tx)) as [Hlt|Hge].
    + constructor; [auto|].
      rewrite insert_sorted_perm. constructor; [|exact Hy].
      exists ty, tx. repeat split; [assumption..|lia].
    + constructor; [now constructor|].
      constructor.
      * exists tx, ty. repeat split; [assumption..|lia].
      * eapply Forall_impl; [exact Hy|].
        intros z (ty' & tz & Hy' & Hz & Hle).
        exists tx, tz. rewrite Hty in Hy'. injection Hy' as <-.
        repeat split; [assumption..|lia].
Qed.

(** When every element has a valid date, the result is in descending
    order of date. *)
Lemma sort_sorted (l : list A) :
  Forall (fun a => is_Some (date a)) l ->
  StronglySorted (not_older date) (sort (newest_first date) l).
Proof.
  induction 1 as [|x l Hx Hl IH]; simpl; [constructor|].
  apply insert_sorted_sorted; [assumption| |assumption].
  change (Forall (fun a => is_Some (date a)) (sort (newest_first date) l)).
  now rewrite sort_perm.
Qed.

End SortFacts.

(** ** The stored collection *)

Lemma elem_of_json_files (d : gmap string entry) (file : string) :
  file ∈ json_files d <-> is_json file = true /\ is_Some (d !! file).
Proof.
  unfold json_files. rewrite list_elem_of_In, filter_In, <- list_elem_of_In.
  change (map fst (map_to_list d)) with (fst <$> map_to_list d).
  rewrite list_elem_of_fmap. split.
  - intros [[[name e] [-> Hin]] Hj]. apply elem_of_map_to_list in Hin.
    split; [assumption | now exists e].
  - intros [Hj [e He]]. split; [|assumption].
    exists (file, e). split; [reflexivity | now apply elem_of_map_to_list].
Qed.


(** ** Running the operations *)

Ltac js_unfold :=
  unfold bind, ret, throw, try_catch, call_trim, call_split_tags,
    JSON.parse, JSON.stringify, fs.readFile, fs.writeFile, fs.unlink,
    fs.readdir, now_iso, uuidv4 in *;
  cbn [posts_dir clock clock_reads entropy entropy_draws fst snd] in *.

Lemma all_map_returns {A B} (f : A -> js B) (g : A -> option B)
      (xs : list A) (w : World) :
  (forall x, x ∈ xs -> exists y, g x = Some y /\ f x w = (Returns y, w)) ->
  all_map f xs w = (Returns (omap g xs), w).
Proof.
  induction xs as [|x xs IH]; intros H; [reflexivity|].
  destruct (H x) as (y & Hg & Hf); [left|].
  cbn [all_map omap list_omap]. unfold bind at 1. rewrite Hf.
  unfold bind at 1. rewrite IH by (intros; apply H; now right).
  unfold ret. now rewrite Hg.
Qed.

Lemma all_map_throws {A B} (f : A -> js B) (xs : list A) (w : World) (x : A) :
  x ∈ xs ->
  (forall x', x' ∈ xs -> exists o, f x' w = (o, w)) ->
  (exists e, f x w = (Throws e, w)) ->
  exists e, all_map f xs w = (Throws e, w).
Proof.
  induction xs as [|x' xs IH]; intros Hin Hpure [e He].
  - inversion Hin.
  - cbn [all_map]. unfold bind at 1.
    destruct (Hpure x') as [o Ho]; [left|]. rewrite Ho.
    destruct o as [y|e']; [|now exists e'].
    unfold bind at 1.
    destruct IH as [e'' He''].
    + apply elem_of_cons in Hin as [->|Hin]; [|assumption].
      rewrite He in Ho. discriminate.
    + intros; apply Hpure; now right.
    + now exists e.
    + rewrite He''. now exists e''.
Qed.

Lemma load_post_returns (w : World) (d : gmap string entry) (file : string)
      (p : Post.t) :
  posts_dir w = Some d -> post_of d file = Some p ->
  load_post file w = (Returns p, w).
Proof.
  intros Hd Hp. unfold load_post, post_of in *. js_unfold. rewrite Hd.
  destruct (d !! file) as [[|[|q]]|]; try discriminate.
  now injection Hp as <-.
Qed.

Lemma load_post_throws (w : World) (d : gmap string entry) (file : string) :
  posts_dir w = Some d -> post_of d file = None ->
  exists e, load_post file w = (Throws e, w).
Proof.
  intros Hd Hp. unfold load_post, post_of in *. js_unfold. rewrite Hd.
  destruct (d !! file) as [[|[|q]]|]; try discriminate; eauto.
Qed.

Section OperationFacts.

Variable Date_parse : string -> option Z.

Lemma getAllPosts_unfold (w : World) :
  getAllPosts Date_parse w =
  try_catch
    (let* files := fs.readdir in
     let* posts := all_map load_post (List.filter is_json files) in
     ret (sort (by_date_desc Date_parse) posts))
    (fun _ => ret []) w.
Proof. reflexivity. Qed.


Lemma getAllPosts_all_good (w : World) (d : gmap string entry) :
  posts_dir w = Some d ->
  (forall file, file ∈ json_files d -> is_Some (post_of d file)) ->
  getAllPosts Date_parse w = (Returns (sort (by_date_desc Date_parse) (stored_posts d)), w).
Proof.
  intros Hd Hall. rewrite getAllPosts_unfold.
  unfold try_catch, bind at 1, fs.readdir. rewrite Hd.
  unfold bind at 1.
  rewrite (all_map_returns load_post (post_of d)); [reflexivity|].
  intros file Hin. destruct (Hall file Hin) as [p Hp].
  exists p. split; [assumption|]. now apply load_post_returns with d.
Qed.

Lemma getAllPosts_one_bad (w : World) (d : gmap string entry) (file : string) :
  posts_dir w = Some d ->
  file ∈ json_files d -> post_of d file = None ->
  getAllPosts Date_parse w = (Returns [], w).
Proof.
  intros Hd Hin Hbad. rewrite getAllPosts_unfold.
  unfold try_catch, bind at 1, fs.readdir. rewrite Hd.
  unfold bind at 1.
  destruct (all_map_throws load_post (json_files d) w file) as [e He].
  - assumption.
  - intros f _. destruct (post_of d f) as [p|] eqn:E.
    + exists (Returns p). now apply load_post_returns with d.
    + destruct (load_post_throws w d f Hd E) as [e He]. now exists (Throws e).
  - now apply load_post_throws with d.
  - unfold json_files in He. now rewrite He.
Qed.


End OperationFacts.

Lemma all_readable_true (d : gmap string entry) :
  all_readable d = true <-> every_file_parses d.
Proof.
  unfold all_readable, every_file_parses. rewrite forallb_forall. split.
  - intros H file e He Hj.
    assert (Hin : file ∈ json_files d).
    { apply elem_of_json_files. split; [assumption | now rewrite He]. }
    apply list_elem_of_In, H, bool_decide_eq_true in Hin as [p Hp].
    unfold post_of in Hp. rewrite He in Hp.
    destruct e as [|[|q]]; try discriminate. now exists q.
  - intros H file Hin. apply list_elem_of_In, elem_of_json_files in Hin
      as [Hj [e He]].
    destruct (H file e He Hj) as [p ->].
    apply bool_decide_eq_true. unfold post_of. rewrite He. eauto.
Qed.

Lemma all_readable_false (d : gmap string entry) :
  all_readable d = false <-> some_file_fails d.
Proof.
  unfold some_file_fails. split.
  - intros H. unfold all_readable in H.
    apply not_true_iff_false in H. rewrite forallb_forall in H.
    destruct (List.Forall_Exists_dec
                (fun f => bool_decide (is_Some (post_of d f)) = true)
                (fun f => decide _) (json_files d)) as [Hall|Hbad].
    + exfalso. apply H. intros f Hf. rewrite Forall_forall in Hall.
      now apply Hall, list_elem_of_In.
    + apply Exists_exists in Hbad as (file & Hin & Hno).
      apply elem_of_json_files in Hin as [Hj [e He]].
      exists file, e. repeat split; [assumption..|].
      rewrite bool_decide_eq_true in Hno. unfold post_of in Hno.
      rewrite He in Hno. destruct e as [|[|q]]; auto.
      exfalso. apply Hno. eauto.
  - intros (file & e & He & Hj & Hbad).
    apply not_true_iff_false. rewrite all_readable_true. intros H.
    unfold every_file_parses in H.
    destruct (H file e He Hj) as [p ->]. destruct Hbad; discriminate.
Qed.

(** ** Single posts *)

Lemma no_subdir_lookup (d : gmap string entry) (name : string) :
  no_subdir d = true -> d !! name <> Some Subdir.
Proof.
  unfold no_subdir. rewrite forallb_forall. intros H Hd.
  apply elem_of_map_to_list, list_elem_of_In, H in Hd. discriminate.
Qed.

Lemma trimmed_or_run (v : jsval) (old : string) (w : World) :
  string_or_falsy v = true ->
  (if truthy v then call_trim v else ret old) w = (Returns (trimmed_or v old), w).
Proof.
  destruct v as [| |b|n|s|]; simpl; try discriminate; try reflexivity.
  - intros ->%negb_true_iff. reflexivity.
  - intros ->%negb_true_iff. reflexivity.
  - destruct s; reflexivity.
Qed.

Lemma tags_or_run (v : jsval) (old : list string) (w : World) :
  string_or_falsy v = true ->
  (if truthy v then call_split_tags v else ret old) w =
  (Returns (tags_or v old), w).
Proof.
  destruct v as [| |b|n|s|]; simpl; try discriminate; try reflexivity.
  - intros ->%negb_true_iff. reflexivity.
  - intros ->%negb_true_iff. reflexivity.
  - destruct s; reflexivity.
Qed.

Lemma getPostByFilename_found (w : World) (d : gmap string entry)
      (h : string) (p : Post.t) :
  posts_dir w = Some d -> d !! (h ++ ".json")%string = Some (File (Json p)) ->
  getPostByFilename h w = (Returns (Some (Post.set_filename h p)), w).
Proof.
  intros Hd Hp. unfold getPostByFilename. js_unfold. now rewrite Hd, Hp.
Qed.

Lemma getPostByFilename_missing (w : World) (d : gmap string entry) (h : string) :
  posts_dir w = Some d -> d !! (h ++ ".json")%string = None ->
  getPostByFilename h w = (Returns None, w).
Proof.
  intros Hd Hp. unfold getPostByFilename. js_unfold. now rewrite Hd, Hp.
Qed.

Lemma bind_returns {A B} (m : js A) (k : A -> js B) (w w' : World) (a : A) :
  m w = (Returns a, w') -> bind m k w = k a w'.
Proof. intros H. unfold bind. now rewrite H. Qed.

Lemma bind_throws {A B} (m : js A) (k : A -> js B) (w w' : World) (e : exn) :
  m w = (Throws e, w') -> bind m k w = (Throws e, w').
Proof. intros H. unfold bind. now rewrite H. Qed.

Lemma generateFilename_run (t : string) (w : World) :
  generateFilename (JStr t) w =
  (Returns (Names.file_name t (entropy w (entropy_draws w))), draw w).
Proof. reflexivity. Qed.

Lemma writeFile_run (w : World) (d : gmap string entry) (name : string)
      (t : text) :
  posts_dir w = Some d -> d !! name <> Some Subdir ->
  fs.writeFile name t w = (Returns tt, set_dir (<[name := File t]> d) w).
Proof.
  intros Hd Hn. unfold fs.writeFile. rewrite Hd.
  destruct (d !! name) as [[|x]|]; [now exfalso | reflexivity..].
Qed.

Ltac world_simpl :=
  cbn [tick draw set_dir entropy entropy_draws clock clock_reads posts_dir].

(** What [createPost] does on valid data in a directory that takes the
    file. *)
Lemma createPost_run (w : World) (d : gmap string entry) (data : PostData.t)
      (t c : string) :
  posts_dir w = Some d ->
  PostData.title data = JStr t -> PostData.content data = JStr c ->
  string_or_falsy (PostData.author data) = true ->
  string_or_falsy (PostData.tags data) = true ->
  let r := entropy w (S (entropy_draws w)) in
  let post :=
    Post.mk (Uuid.v4 (entropy w (entropy_draws w))) (Str.trim t) (Str.trim c)
            (trimmed_or (PostData.author data) "Anonymous")
            (tags_or (PostData.tags data) [])
            (Date.toISOString (clock w (clock_reads w)))
            (Date.toISOString (clock w (S (clock_reads w)))) None in
  d !! Names.file_name t r <> Some Subdir ->
  createPost data w =
  (Returns (Post.set_filename (Names.handle t r) post),
   set_dir (<[Names.file_name t r := File (Json post)]> d)
           (draw (tick (tick (draw w))))).
Proof.
  intros Hd Ht Hc Ha Hg r post Hfree. unfold createPost.
  rewrite Ht, Hc.
  rewrite (bind_returns _ _ _ _ _ (eq_refl : uuidv4 w = _)).
  unfold call_trim at 1 2.
  rewrite (bind_returns _ _ _ _ _ (eq_refl : ret (Str.trim t) (draw w) = _)).
  rewrite (bind_returns _ _ _ _ _ (eq_refl : ret (Str.trim c) (draw w) = _)).
  rewrite (bind_returns _ _ _ _ _ (trimmed_or_run _ "Anonymous" _ Ha)).
  rewrite (bind_returns _ _ _ _ _ (tags_or_run _ [] _ Hg)).
  rewrite (bind_returns _ _ _ _ _ (eq_refl : now_iso (draw w) = _)).
  rewrite (bind_returns _ _ _ _ _ (eq_refl : now_iso (tick (draw w)) = _)).
  rewrite (bind_returns _ _ _ _ _ (generateFilename_run t _)).
  erewrite bind_returns;
    [|apply writeFile_run with (d := d); [exact Hd | exact Hfree]].
  unfold ret. world_simpl.
  fold r. rewrite (NameFacts.replace_file_name t r). reflexivity.
Qed.

(** [createPost] on data without a title or without a content. *)
Lemma createPost_throws (w : World) (data : PostData.t) :
  is_string (PostData.title data) && is_string (PostData.content data) = false ->
  createPost data w = (Throws TypeError, draw w).
Proof.
  intros H. unfold createPost.
  unfold bind at 1, uuidv4.
  destruct (PostData.title data) as [| |b|n|t|] eqn:Et; try reflexivity.
  destruct (PostData.content data) as [| |b|n|c|] eqn:Ec; try reflexivity.
  discriminate H.
Qed.

(** What [updatePost] does on a stored post. *)
Lemma updatePost_run (w : World) (d : gmap string entry) (h : string)
      (old : Post.t) (data : PostData.t) :
  posts_dir w = Some d ->
  d !! (h ++ ".json")%string = Some (File (Json old)) ->
  string_or_falsy (PostData.title data) = true ->
  string_or_falsy (PostData.content data) = true ->
  string_or_falsy (PostData.author data) = true ->
  string_or_falsy (PostData.tags data) = true ->
  let new := merged old data (Date.toISOString (clock w (clock_reads w))) in
  updatePost h data w =
  (Returns (Some (Post.set_filename h new)),
   set_dir (<[(h ++ ".json")%string := File (Json new)]> d) (tick w)).
Proof.
  intros Hd Hold Ht Hc Ha Hg new. unfold updatePost, try_catch.
  assert (Hread : fs.readFile (h ++ ".json") w = (Returns (Json old), w)).
  { unfold fs.readFile. now rewrite Hd, Hold. }
  rewrite (bind_returns _ _ _ _ _ Hread).
  rewrite (bind_returns _ _ _ _ _ (eq_refl : JSON.parse (Json old) w = _)).
  rewrite (bind_returns _ _ _ _ _ (trimmed_or_run _ _ _ Ht)).
  rewrite (bind_returns _ _ _ _ _ (trimmed_or_run _ _ _ Hc)).
  rewrite (bind_returns _ _ _ _ _ (trimmed_or_run _ _ _ Ha)).
  rewrite (bind_returns _ _ _ _ _ (tags_or_run _ _ _ Hg)).
  rewrite (bind_returns _ _ _ _ _ (eq_refl : now_iso w = _)).
  erewrite bind_returns; [reflexivity|].
  apply writeFile_run; [exact Hd|]. world_simpl. now rewrite Hold.
Qed.

Lemma deletePost_file (w : World) (d : gmap string entry) (h : string) (t : text) :
  posts_dir w = Some d -> d !! (h ++ ".json")%string = Some (File t) ->
  deletePost h w = (Returns true, set_dir (delete (h ++ ".json")%string d) w).
Proof.
  intros Hd Hf. unfold deletePost. js_unfold. now rewrite Hd, Hf.
Qed.

Lemma deletePost_no_file (w : World) (h : string) :
  (forall d t, posts_dir w = Some d -> d !! (h ++ ".json")%string <> Some (File t)) ->
  deletePost h w = (Returns false, w).
Proof.
  intros H. unfold deletePost. js_unfold.
  destruct (posts_dir w) as [d|] eqn:Hd; [|reflexivity].
  destruct (d !! (h ++ ".json")%string) as [[|t]|] eqn:E; try reflexivity.
  now destruct (H d t).
Qed.

(** ** Matching *)

Lemma includes_lower (q s : string) :
  Str.includes (Str.toLowerCase q) (Str.toLowerCase s) = true <->
  ci_substring q s.
Proof.
  rewrite StrFacts.includes_spec. unfold ci_substring, ci_equal. split.
  - intros (a' & b' & H).
    apply StrFacts.toLowerCase_split in H as (a & r & -> & Ha & Hr).
    apply StrFacts.toLowerCase_split in Hr as (m & b & -> & Hm & Hb).
    now exists a, m, b.
  - intros (a & m & b & -> & Hm).
    exists (Str.toLowerCase a), (Str.toLowerCase b).
    now rewrite !StrFacts.toLowerCase_app, Hm.
Qed.

Lemma search_filter_spec (q : string) (p : Post.t) :
  Str.includes (Str.toLowerCase q) (Str.toLowerCase (Post.title p)) ||
  Str.includes (Str.toLowerCase q) (Str.toLowerCase (Post.content p)) ||
  existsb (fun tag => Str.includes (Str.toLowerCase q) (Str.toLowerCase tag))
          (Post.tags p) = true <->
  query_occurs q p.
Proof.
  unfold query_occurs.
  rewrite !orb_true_iff, !includes_lower, existsb_exists. split.
  - intros [[H|H]|(tag & Hin & H)]; auto.
    right. right. exists tag. now rewrite list_elem_of_In, <- includes_lower.
  - intros [H|[H|(tag & Hin & H)]]; auto.
    right. exists tag. now rewrite <- list_elem_of_In, includes_lower.
Qed.

Lemma tag_filter_spec (tag : string) (p : Post.t) :
  existsb (fun t => String.eqb (Str.toLowerCase t) (Str.toLowerCase tag))
          (Post.tags p) = true <->
  tagged tag p.
Proof.
  unfold tagged, ci_equal. rewrite existsb_exists. split.
  - intros (t & Hin & H). exists t. now rewrite list_elem_of_In, <- String.eqb_eq.
  - intros (t & Hin & H). exists t. now rewrite <- list_elem_of_In, String.eqb_eq.
Qed.

Lemma filter_sublist {A} (f : A -> bool) (l : list A) :
  sublist (List.filter f l) l.
Proof.
  induction l as [|x l IH]; simpl; [constructor|].
  destruct (f x); now constructor.
Qed.

(** ** The listing of a directory *)

Lemma getAllPosts_parses (Date_parse : string -> option Z) (w : World)
      (d : gmap string entry) :
  posts_dir w = Some d -> every_file_parses d ->
  getAllPosts Date_parse w =
  (Returns (sort (by_date_desc Date_parse) (stored_posts d)), w).
Proof.
  intros Hd Hall. apply (getAllPosts_all_good Date_parse w d Hd).
  intros file Hin. apply elem_of_json_files in Hin as [Hj [e He]].
  destruct (Hall file e He Hj) as [p ->]. unfold post_of. rewrite He. eauto.
Qed.

Lemma getAllPosts_fails (Date_parse : string -> option Z) (w : World)
      (d : gmap string entry) :
  posts_dir w = Some d -> some_file_fails d ->
  getAllPosts Date_parse w = (Returns [], w).
Proof.
  intros Hd (file & e & He & Hj & Hbad).
  apply (getAllPosts_one_bad Date_parse w d file Hd).
  - apply elem_of_json_files. split; [assumption | now rewrite He].
  - unfold post_of. rewrite He. now destruct Hbad as [-> | ->].
Qed.

Lemma no_post_at_lookup (h : string) (w : World) :
  no_post_at h w ->
  forall d p, posts_dir w = Some d ->
              d !! (h ++ ".json")%string <> Some (File (Json p)).
Proof.
  unfold no_post_at. intros H d p Hd. rewrite Hd in H.
  destruct H as [H|[H|H]]; rewrite H; discriminate.
Qed.

(** ** The claims about listing *)

Section ListingClaims.

Variable Date_parse : string -> option Z.


(** C4.  When every [.json] file parses and every post has a valid
    [createdAt], [getAllPosts] returns the stored posts in descending order
    of [createdAt]; three posts dated [t1 < t2 < t3] come back as the third,
    the second, the first. *)
Theorem getAllPosts_newest_first (w : World) (d : gmap string entry) :
  posts_dir w = Some d -> every_file_parses d ->
  (forall p, p ∈ stored_posts d -> is_Some (Date_parse (Post.createdAt p))) ->
  exists posts,
    getAllPosts Date_parse w = (Returns posts, w) /\
    posts ≡ₚ stored_posts d /\
    StronglySorted (not_older (fun p => Date_parse (Post.createdAt p))) posts /\
    (forall p1 p2 p3 t1 t2 t3,
       stored_posts d ≡ₚ [p1; p2; p3] ->
       Date_parse (Post.createdAt p1) = Some t1 ->
       Date_parse (Post.createdAt p2) = Some t2 ->
       Date_parse (Post.createdAt p3) = Some t3 ->
       (t1 < t2 < t3)%Z ->
       posts = [p3; p2; p1]).
Proof.
  intros Hd Hall Hdates.
  set (date := fun p => Date_parse (Post.createdAt p)).
  exists (sort (newest_first date) (stored_posts d)).
  assert (Hsorted : StronglySorted (not_older date)
                      (sort (newest_first date) (stored_posts d))).
  { apply sort_sorted, Forall_forall. exact Hdates. }
  split; [|split; [apply sort_perm | split; [exact Hsorted|]]].
  - change (newest_first date) with (by_date_desc Date_parse).
    apply (getAllPosts_all_good Date_parse w d Hd).
    intros file Hin. apply elem_of_json_files in Hin as [Hj [e He]].
    destruct (Hall file e He Hj) as [p ->].
    unfold post_of. rewrite He. eauto.
  - intros p1 p2 p3 t1 t2 t3 Hperm H1 H2 H3 Hlt.
    apply (StronglySorted_unique_strong (not_older date)).
    + intros x y Hx Hy (tx & ty & Hdx & Hdy & Hle) (ty' & tx' & Hdy' & Hdx' & Hle').
      rewrite Hdx in Hdx'. rewrite Hdy in Hdy'.
      injection Hdx' as <-. injection Hdy' as <-.
      assert (tx = ty) as -> by lia.
      rewrite sort_perm, Hperm in Hx.
      unfold date in *.
      repeat (apply elem_of_cons in Hx as [->|Hx]);
        repeat (apply elem_of_cons in Hy as [->|Hy]);
        try reflexivity; try (inversion Hx; fail); try (inversion Hy; fail);
        exfalso; congruence || (rewrite ?H1, ?H2, ?H3 in *; simplify_eq; lia).
    + exact Hsorted.
    + repeat constructor; unfold not_older, date;
        eexists _, _; (repeat split; [eassumption..|lia]).
    + rewrite sort_perm, Hperm.
      exact (Permutation_rev [p1; p2; p3]).
Qed.

End ListingClaims.

(** ** The claims about searching *)

Section SearchClaims.

Variable Date_parse : string -> option Z.


(** C6.  For every tag and every collection of stored posts (a directory
    whose [.json] files all hold posts), [getPostsByTag tag] returns exactly
    those stored posts with a tag equal to [tag] up to case, in the order in
    which [getAllPosts] lists the collection; the whole tag is compared, so
    that the tag [Go] selects a post tagged [go] and not one tagged only
    [golang]. *)
Theorem getPostsByTag_spec (tag : string) (w : World) (d : gmap string entry) :
  posts_dir w = Some d -> every_file_parses d ->
  (exists all found,
     getAllPosts Date_parse w = (Returns all, w) /\
     all ≡ₚ stored_posts d /\
     getPostsByTag Date_parse tag w = (Returns found, w) /\
     sublist found all /\
     forall p, p ∈ found <-> p ∈ stored_posts d /\ tagged tag p) /\
  ci_equal "go" "Go" /\ ~ ci_equal "golang" "Go" /\ ci_substring "Go" "golang".
Proof.
  intros Hd Hposts. split.
  - pose proof (getAllPosts_parses Date_parse w d Hd Hposts) as Hall.
    eexists _, _. split; [exact Hall|]. split; [apply sort_perm|].
    unfold getPostsByTag. rewrite (bind_returns _ _ _ _ _ Hall). unfold ret.
    split; [reflexivity|]. split; [apply filter_sublist|].
    intros p. rewrite list_elem_of_In, filter_In, tag_filter_spec,
      <- list_elem_of_In.
    now rewrite sort_perm.
  - split; [reflexivity|]. split; [discriminate|].
    now exists ""%string, "go"%string, "lang"%string.
Qed.

End SearchClaims.

(** ** Creating, updating, deleting *)

(** C3.  On valid post data, in a directory that takes the new file,
    [createPost] returns a post with a handle, and [getPostByFilename] on
    that handle then returns the very same post, field by field. *)
Theorem createPost_then_getPostByFilename (data : PostData.t) (w : World)
        (d : gmap string entry) :
  valid_data data = true -> posts_dir w = Some d -> no_subdir d = true ->
  exists p w' h,
    createPost data w = (Returns p, w') /\
    Post.filename p = Some h /\
    getPostByFilename h w' = (Returns (Some p), w').
Proof.
  unfold valid_data. rewrite !andb_true_iff. intros [[[Ht Hc] Ha] Hg] Hd Hsub.
  destruct (PostData.title data) as [| | | |t|] eqn:Et; try discriminate.
  destruct (PostData.content data) as [| | | |c|] eqn:Ec; try discriminate.
  pose proof (createPost_run w d data t c Hd Et Ec Ha Hg
                (no_subdir_lookup _ _ Hsub)) as Hrun.
  cbv zeta in Hrun.
  eexists _, _, _. split; [exact Hrun|]. split; [reflexivity|].
  erewrite getPostByFilename_found; [reflexivity | reflexivity |].
  rewrite <- NameFacts.file_name_handle. apply lookup_insert_eq.
Qed.

(** C7.  With title [My First Post], content [Hello there], no author and
    no tags, [createPost] returns a post whose author is [Anonymous], whose
    tags are empty, whose id is not empty and whose handle begins with
    [my-first-post-]. *)
Theorem createPost_first_post (w : World) (d : gmap string entry) :
  posts_dir w = Some d -> no_subdir d = true ->
  exists p w' h,
    createPost first_post_data w = (Returns p, w') /\
    Post.title p = "My First Post" /\ Post.content p = "Hello there" /\
    Post.author p = "Anonymous" /\ Post.tags p = [] /\ Post.id p <> "" /\
    Post.filename p = Some h /\ Str.startsWith "my-first-post-" h = true.
Proof.
  intros Hd Hsub.
  pose proof (createPost_run w d first_post_data
                "My First Post" "Hello there" Hd
                eq_refl eq_refl eq_refl eq_refl
                (no_subdir_lookup _ _ Hsub)) as Hrun.
  cbv zeta in Hrun.
  eexists _, _, _. split; [exact Hrun|].
  cbn [Post.set_filename Post.title Post.content Post.author Post.tags Post.id
       Post.filename first_post_data PostData.author PostData.tags
       trimmed_or tags_or].
  split; [reflexivity|]. split; [reflexivity|]. split; [reflexivity|].
  split; [reflexivity|]. split; [apply NameFacts.v4_nonempty|].
  split; [reflexivity|].
  exact (NameFacts.startsWith_handle "My First Post" _).
Qed.

(** C9.  [createPost] throws a [TypeError] when the title or the content is
    [undefined] or [null], and then writes nothing.  When both are strings
    the two calls of [trim] return, and the post is created with the
    trimmed title and content. *)
Theorem createPost_requires_title_and_content (data : PostData.t) (w : World) :
  (absent (PostData.title data) || absent (PostData.content data) = true ->
   createPost data w = (Throws TypeError, draw w) /\
   posts_dir (draw w) = posts_dir w) /\
  (forall t c,
     PostData.title data = JStr t -> PostData.content data = JStr c ->
     call_trim (PostData.title data) w = (Returns (Str.trim t), w) /\
     call_trim (PostData.content data) w = (Returns (Str.trim c), w) /\
     forall d,
       string_or_falsy (PostData.author data) = true ->
       string_or_falsy (PostData.tags data) = true ->
       posts_dir w = Some d -> no_subdir d = true ->
       exists p w', createPost data w = (Returns p, w') /\
                    Post.title p = Str.trim t /\ Post.content p = Str.trim c).
Proof.
  split.
  - intros H. split; [|reflexivity]. apply createPost_throws.
    destruct (PostData.title data), (PostData.content data);
      try reflexivity; discriminate H.
  - intros t c Ht Hc. rewrite Ht, Hc. repeat split.
    intros d Ha Hg Hd Hsub.
    pose proof (createPost_run w d data t c Hd Ht Hc Ha Hg
                  (no_subdir_lookup _ _ Hsub)) as Hrun.
    cbv zeta in Hrun. eexists _, _. split; [exact Hrun|]. split; reflexivity.
Qed.

(** C2, as amended.  On a stored post, with every provided field a string,
    [updatePost] replaces each field provided as a non-empty string by the
    trimmed value (the tags by the trimmed, non-empty tokens between the
    commas), keeps each field that is omitted or empty, keeps [id],
    [createdAt] and the handle, and sets [updatedAt] to the reading of the
    clock at the update, which need not be later than the one before.
    [getPostByFilename] then returns this merged post. *)
Theorem updatePost_merges (w : World) (d : gmap string entry) (h : string)
        (old : Post.t) (data : PostData.t) :
  posts_dir w = Some d ->
  d !! (h ++ ".json")%string = Some (File (Json old)) ->
  string_or_falsy (PostData.title data) = true ->
  string_or_falsy (PostData.content data) = true ->
  string_or_falsy (PostData.author data) = true ->
  string_or_falsy (PostData.tags data) = true ->
  getPostByFilename h w = (Returns (Some (Post.set_filename h old)), w) /\
  exists p w',
    updatePost h data w = (Returns (Some p), w') /\
    Post.title p = trimmed_or (PostData.title data) (Post.title old) /\
    Post.content p = trimmed_or (PostData.content data) (Post.content old) /\
    Post.author p = trimmed_or (PostData.author data) (Post.author old) /\
    Post.tags p = tags_or (PostData.tags data) (Post.tags old) /\
    Post.id p = Post.id old /\
    Post.createdAt p = Post.createdAt old /\
    Post.filename p = Some h /\
    Post.updatedAt p = Date.toISOString (clock w (clock_reads w)) /\
    getPostByFilename h w' = (Returns (Some p), w').
Proof.
  intros Hd Hold Ht Hc Ha Hg.
  split; [now apply getPostByFilename_found with d|].
  pose proof (updatePost_run w d h old data Hd Hold Ht Hc Ha Hg) as Hrun.
  cbv zeta in Hrun.
  eexists _, _. split; [exact Hrun|]. repeat split.
  erewrite getPostByFilename_found; [reflexivity | reflexivity |].
  apply lookup_insert_eq.
Qed.

(** C10, as amended.  On a stored post, a field given to [updatePost] as
    the empty string keeps its previous value, as an omitted field does.
    The tags can all the same be cleared through [updatePost]: a tags
    string that is not empty and holds no token, such as a single comma,
    leaves the post without tags. *)
Theorem updatePost_empty_string_keeps (w : World) (d : gmap string entry)
        (h : string) (old : Post.t) (data : PostData.t) :
  posts_dir w = Some d ->
  d !! (h ++ ".json")%string = Some (File (Json old)) ->
  string_or_falsy (PostData.title data) = true ->
  string_or_falsy (PostData.content data) = true ->
  string_or_falsy (PostData.author data) = true ->
  string_or_falsy (PostData.tags data) = true ->
  exists p w',
    updatePost h data w = (Returns (Some p), w') /\
    (PostData.title data = JStr "" -> Post.title p = Post.title old) /\
    (PostData.content data = JStr "" -> Post.content p = Post.content old) /\
    (PostData.author data = JStr "" -> Post.author p = Post.author old) /\
    (PostData.tags data = JStr "" -> Post.tags p = Post.tags old) /\
    (forall s, PostData.tags data = JStr s -> s <> "" -> split_tags s = [] ->
               Post.tags p = []) /\
    split_tags "," = [].
Proof.
  intros Hd Hold Ht Hc Ha Hg.
  pose proof (updatePost_run w d h old data Hd Hold Ht Hc Ha Hg) as Hrun.
  cbv zeta in Hrun.
  eexists _, _. split; [exact Hrun|]. cbn [Post.set_filename merged
    Post.title Post.content Post.author Post.tags].
  repeat split; try (intros ->; reflexivity).
  intros s -> Hs Hnone. destruct s; [contradiction | exact Hnone].
Qed.

(** C8.  [deletePost] always returns a boolean and never throws: [true]
    when there was a file for the handle, which is then gone, so that
    [getPostByFilename] no longer finds the post; [false], with nothing
    changed, when there is no file for the handle (no directory, no entry
    of that name, or an entry that is not a file).  The last case is that
    of a plain handle: a handle with a path separator may name a file
    although the directory has no entry of that name. *)
Theorem deletePost_returns_boolean (h : string) (w : World) :
  (exists b w', deletePost h w = (Returns b, w')) /\
  (forall d t,
     posts_dir w = Some d -> d !! (h ++ ".json")%string = Some (File t) ->
     let w' := set_dir (delete (h ++ ".json")%string d) w in
     deletePost h w = (Returns true, w') /\
     getPostByFilename h w' = (Returns None, w')) /\
  (plain_handle h = true ->
   (forall d t, posts_dir w = Some d ->
                d !! (h ++ ".json")%string <> Some (File t)) ->
   deletePost h w = (Returns false, w)).
Proof.
  split; [|split].
  - unfold deletePost. js_unfold.
    destruct (posts_dir w) as [d|]; [|eauto].
    destruct (d !! (h ++ ".json")%string) as [[|t]|]; eauto.
  - intros d t Hd Hf w'. split; [now apply deletePost_file with t|].
    apply getPostByFilename_missing with (delete (h ++ ".json")%string d);
      [reflexivity | apply lookup_delete_eq].
  - intros _. apply deletePost_no_file.
Qed.

(** ** The properties at concrete inputs *)



Lemma getAllPosts_newest_first_witness :
  getAllPosts Date.parse_iso three_posts_world =
  (Returns [Post.set_filename "gamma-06d3a06d" gamma_post;
            Post.set_filename "beta-048d159e" beta_post;
            Post.set_filename "alpha-02468acf" alpha_post],
   three_posts_world).
Proof.
  destruct (getAllPosts_newest_first Date.parse_iso three_posts_world
              three_posts_dir) as (posts & Hrun & _ & _ & Hthree).
  - reflexivity.
  - apply all_readable_true. reflexivity.
  - intros p Hp.
    change (stored_posts three_posts_dir)
      with [Post.set_filename "gamma-06d3a06d" gamma_post;
            Post.set_filename "alpha-02468acf" alpha_post;
            Post.set_filename "beta-048d159e" beta_post] in Hp.
    apply list_elem_of_In in Hp.
    destruct Hp as [<-|[<-|[<-|[]]]]; eexists; reflexivity.
  - rewrite Hrun. f_equal. f_equal.
    apply (Hthree (Post.set_filename "alpha-02468acf" alpha_post)
                  (Post.set_filename "beta-048d159e" beta_post)
                  (Post.set_filename "gamma-06d3a06d" gamma_post)
                  1700000000000 1700000002000 1700000004000)%Z.
    + change (stored_posts three_posts_dir)
        with [Post.set_filename "gamma-06d3a06d" gamma_post;
              Post.set_filename "alpha-02468acf" alpha_post;
              Post.set_filename "beta-048d159e" beta_post].
      exact (Permutation_cons_append
               [Post.set_filename "alpha-02468acf" alpha_post;
                Post.set_filename "beta-048d159e" beta_post]
               (Post.set_filename "gamma-06d3a06d" gamma_post)).
    + reflexivity.
    + reflexivity.
    + reflexivity.
    + lia.
Defined.

Lemma createPost_then_getPostByFilename_witness :
  exists p w' h,
    createPost first_post_data good_world = (Returns p, w') /\
    Post.filename p = Some h /\
    getPostByFilename h w' = (Returns (Some p), w').
Proof.
  apply (createPost_then_getPostByFilename first_post_data good_world good_dir).
  - reflexivity.
  - reflexivity.
  - reflexivity.
Defined.

Lemma createPost_first_post_witness :
  exists p w' h,
    createPost first_post_data good_world = (Returns p, w') /\
    Post.title p = "My First Post" /\ Post.content p = "Hello there" /\
    Post.author p = "Anonymous" /\ Post.tags p = [] /\ Post.id p <> "" /\
    Post.filename p = Some h /\ Str.startsWith "my-first-post-" h = true.
Proof.
  apply (createPost_first_post good_world good_dir).
  - reflexivity.
  - reflexivity.
Defined.

Lemma createPost_requires_title_and_content_witness :
  createPost (PostData.mk JNull (JStr "Hello there") JUndefined JUndefined)
             good_world = (Throws TypeError, draw good_world) /\
  createPost (PostData.mk (JStr "My First Post") JUndefined JUndefined JUndefined)
             good_world = (Throws TypeError, draw good_world) /\
  exists p w', createPost first_post_data good_world = (Returns p, w') /\
               Post.title p = "My First Post" /\ Post.content p = "Hello there".
Proof.
  split; [|split].
  - apply (proj1 (createPost_requires_title_and_content
                    (PostData.mk JNull (JStr "Hello there") JUndefined JUndefined)
                    good_world)).
    reflexivity.
  - apply (proj1 (createPost_requires_title_and_content
                    (PostData.mk (JStr "My First Post") JUndefined JUndefined
                                 JUndefined)
                    good_world)).
    reflexivity.
  - apply (proj2 (proj2 (proj2 (createPost_requires_title_and_content
                                  first_post_data good_world)
                           "My First Post" "Hello there" eq_refl eq_refl))
             good_dir).
    + reflexivity.
    + reflexivity.
    + reflexivity.
    + reflexivity.
Defined.

(** C2 as the specification states it fails: a post created and updated
    within one millisecond keeps its [updatedAt], and the title provided
    with surrounding blanks is not the title stored. *)
Lemma updatePost_strictly_later_counterexample :
  fst (createPost note_data frozen_world) = Returns note_created /\
  fst (updatePost "release-notes-02468acf" note_revision
         (snd (createPost note_data frozen_world))) =
    Returns (Some note_updated) /\
  Post.updatedAt note_updated = Post.updatedAt note_created /\
  PostData.title note_revision = JStr " Release notes, revised " /\
  Post.title note_updated <> " Release notes, revised ".
Proof.
  repeat split. discriminate.
Qed.

Lemma updatePost_merges_witness :
  getPostByFilename "hello-world-6f1c2a9e" good_world =
    (Returns (Some (Post.set_filename "hello-world-6f1c2a9e" hello_post)),
     good_world) /\
  exists p w',
    updatePost "hello-world-6f1c2a9e" hello_revision good_world =
      (Returns (Some p), w') /\
    Post.title p = "Hello again" /\
    Post.content p = "First entry" /\
    Post.author p = "Anonymous" /\
    Post.tags p = ["go"; "rocq"] /\
    Post.id p = Post.id hello_post /\
    Post.createdAt p = Post.createdAt hello_post /\
    Post.filename p = Some "hello-world-6f1c2a9e" /\
    Post.updatedAt p = "2023-11-14T22:13:20.000Z" /\
    getPostByFilename "hello-world-6f1c2a9e" w' = (Returns (Some p), w').
Proof.
  apply (updatePost_merges good_world good_dir "hello-world-6f1c2a9e"
           hello_post hello_revision).
  - reflexivity.
  - reflexivity.
  - reflexivity.
  - reflexivity.
  - reflexivity.
  - reflexivity.
Defined.

(** C10 as stated fails: a single comma for the tags clears them. *)
Lemma updatePost_clears_tags_counterexample :
  Post.tags hello_post = ["Go"] /\
  getPostByFilename "hello-world-6f1c2a9e" good_world =
    (Returns (Some (Post.set_filename "hello-world-6f1c2a9e" hello_post)),
     good_world) /\
  exists p,
    fst (updatePost "hello-world-6f1c2a9e" only_a_comma good_world) =
      Returns (Some p) /\
    Post.tags p = [].
Proof.
  split; [reflexivity|]. split; [reflexivity|].
  eexists. split; [reflexivity | reflexivity].
Qed.

Lemma updatePost_empty_string_keeps_witness :
  exists p w',
    updatePost "hello-world-6f1c2a9e"
               (PostData.mk (JStr "") (JStr "") (JStr "") (JStr "")) good_world =
      (Returns (Some p), w') /\
    Post.title p = "Hello World" /\ Post.content p = "First entry" /\
    Post.author p = "Anonymous" /\ Post.tags p = ["Go"].
Proof.
  destruct (updatePost_empty_string_keeps good_world good_dir
              "hello-world-6f1c2a9e" hello_post
              (PostData.mk (JStr "") (JStr "") (JStr "") (JStr "")))
    as (p & w' & Hrun & Ht & Hc & Ha & Hg & _).
  - reflexivity.
  - reflexivity.
  - reflexivity.
  - reflexivity.
  - reflexivity.
  - reflexivity.
  - exists p, w'. split; [exact Hrun|].
    split; [exact (Ht eq_refl)|]. split; [exact (Hc eq_refl)|].
    split; [exact (Ha eq_refl) | exact (Hg eq_refl)].
Defined.

Lemma deletePost_returns_boolean_witness :
  (deletePost "hello-world-6f1c2a9e" good_world =
     (Returns true,
      set_dir (delete "hello-world-6f1c2a9e.json" good_dir) good_world) /\
   getPostByFilename "hello-world-6f1c2a9e"
     (set_dir (delete "hello-world-6f1c2a9e.json" good_dir) good_world) =
     (Returns None,
      set_dir (delete "hello-world-6f1c2a9e.json" good_dir) good_world)) /\
  deletePost "no-such-post" good_world = (Returns false, good_world).
Proof.
  split.
  - apply (proj1 (proj2 (deletePost_returns_boolean "hello-world-6f1c2a9e"
                           good_world))
             good_dir (Json hello_post) eq_refl).
    reflexivity.
  - apply (proj2 (proj2 (deletePost_returns_boolean "no-such-post" good_world))).
    + reflexivity.
    + intros d t Hd. injection Hd as <-. discriminate.
Defined.


Lemma getPostsByTag_spec_witness :
  (exists all found,
     getAllPosts Date.parse_iso good_world = (Returns all, good_world) /\
     all ≡ₚ stored_posts good_dir /\
     getPostsByTag Date.parse_iso "Go" good_world = (Returns found, good_world) /\
     sublist found all /\
     forall p, p ∈ found <-> p ∈ stored_posts good_dir /\ tagged "Go" p) /\
  ci_equal "go" "Go" /\ ~ ci_equal "golang" "Go" /\ ci_substring "Go" "golang".
Proof.
  apply (getPostsByTag_spec Date.parse_iso "Go" good_world good_dir).
  - reflexivity.
  - apply all_readable_true. reflexivity.
Defined.

(** The scenarios of the specification for searching and for tags. *)
Example searchPosts_hello :
  fst (searchPosts Date.parse_iso "hello" (world_with (Some search_dir))) =
  Returns [Post.set_filename "third-9d8c7b6a" tagged_post;
           Post.set_filename "second-0a1b2c3d" second_post;
           Post.set_filename "hello-world-6f1c2a9e" hello_post].
Proof. reflexivity. Qed.

Example getPostsByTag_go :
  fst (getPostsByTag Date.parse_iso "go" good_world) =
    Returns [Post.set_filename "hello-world-6f1c2a9e" hello_post] /\
  fst (getPostsByTag Date.parse_iso "GOLANG" good_world) =
    Returns [Post.set_filename "second-0a1b2c3d" second_post].
Proof. split; reflexivity. Qed.

(** * Part IV: further properties of the module and of the request handlers *)

(** ** Trimming and tags *)

Module TrimFacts.
Import Str Names StrFacts.

Lemma head_clean_trimStart (s : string) : head_clean (trimStart s) = true.
Proof.
  induction s as [|c s IH]; simpl; [reflexivity|].
  destruct (is_space c) eqn:E; [exact IH | simpl; now rewrite E].
Qed.

Lemma trimStart_head_clean (s : string) : head_clean s = true -> trimStart s = s.
Proof.
  destruct s as [|c s]; simpl; [reflexivity|].
  now intros ->%negb_true_iff.
Qed.

Lemma head_clean_trimEnd (s : string) :
  head_clean s = true -> head_clean (trimEnd s) = true.
Proof.
  destruct s as [|c s]; simpl; [reflexivity|].
  intros H. destruct (trimEnd s); [|exact H].
  apply negb_true_iff in H. rewrite H. simpl. now rewrite H.
Qed.

Lemma trimEnd_idempotent (s : string) : trimEnd (trimEnd s) = trimEnd s.
Proof.
  induction s as [|c s IH]; simpl; [reflexivity|].
  destruct (trimEnd s) as [|d r] eqn:E.
  - destruct (is_space c) eqn:Ec; simpl; [reflexivity | now rewrite Ec].
  - cbn [trimEnd]. cbn [trimEnd] in IH. rewrite IH. reflexivity.
Qed.

Lemma trim_idempotent (s : string) : trim (trim s) = trim s.
Proof.
  unfold trim.
  rewrite (trimStart_head_clean (trimEnd (trimStart s))).
  - apply trimEnd_idempotent.
  - apply head_clean_trimEnd, head_clean_trimStart.
Qed.

Lemma all_chars_split (sep : ascii) (s : string) :
  Forall (fun piece => all_chars (fun c => negb (Ascii.eqb c sep)) piece = true)
         (split sep s).
Proof.
  induction s as [|c s IH]; simpl; [repeat constructor|].
  destruct (Ascii.eqb c sep) eqn:E; [constructor; [reflexivity | exact IH]|].
  destruct (split sep s) as [|w ws]; [repeat constructor; simpl; now rewrite E|].
  apply Forall_cons in IH as [Hw Hws]. constructor; [|exact Hws].
  simpl. now rewrite E, Hw.
Qed.

Lemma split_tags_clean (s : string) : Forall clean_tag (split_tags s).
Proof.
  unfold split_tags. apply Forall_forall. intros t Ht.
  apply list_elem_of_In, filter_In in Ht as [Hin Hne].
  apply in_map_iff in Hin as (piece & <- & Hin).
  repeat split.
  - intros E. rewrite E in Hne. discriminate.
  - apply trim_idempotent.
  - apply all_chars_trim.
    pose proof (all_chars_split "," s) as H. rewrite Forall_forall in H.
    apply H. now apply list_elem_of_In.
Qed.
End TrimFacts.

Lemma trimmed_trimmed_or (v : jsval) (old : string) :
  trimmed old -> trimmed (trimmed_or v old).
Proof.
  intros Hold. destruct v as [| | | |[|c s]|]; try exact Hold.
  apply TrimFacts.trim_idempotent.
Qed.

Lemma clean_tags_or (v : jsval) (old : list string) :
  Forall clean_tag old -> Forall clean_tag (tags_or v old).
Proof.
  intros Hold. destruct v as [| | | |[|c s]|]; try exact Hold.
  apply TrimFacts.split_tags_clean.
Qed.

Lemma trim_blank (t : string) :
  Names.all_chars Str.is_space t = true -> Str.trim t = "".
Proof.
  unfold Str.trim. induction t as [|c t IH]; [reflexivity|].
  cbn [Names.all_chars Str.trimStart]. rewrite andb_true_iff. intros [-> Ht].
  auto.
Qed.

Lemma appendChar_space (c : ascii) :
  Str.is_space c = true -> Slugify.appendChar c = String c "".
Proof.
  destruct c as [[] [] [] [] [] [] [] []]; vm_compute; intros;
    solve [reflexivity | discriminate].
Qed.

Lemma slugify_blank (t : string) :
  Names.all_chars Str.is_space t = true -> Slugify.slugify t = "".
Proof.
  intros H. unfold Slugify.slugify.
  assert (Hmap : Slugify.mapChars t = t).
  { induction t as [|c t IH]; [reflexivity|].
    cbn [Names.all_chars] in H. apply andb_true_iff in H as [Hc Ht].
    cbn [Slugify.mapChars]. rewrite (appendChar_space c Hc), (IH Ht).
    reflexivity. }
  assert (Hkeep : Slugify.keep (fun c => Slugify.is_alnum c || Str.is_space c) t = t).
  { clear Hmap. induction t as [|c t IH]; [reflexivity|].
    cbn [Names.all_chars] in H. apply andb_true_iff in H as [Hc Ht].
    cbn [Slugify.keep]. rewrite Hc, orb_true_r, (IH Ht). reflexivity. }
  now rewrite Hmap, Hkeep, (trim_blank t H).
Qed.

(** ** Strings and values *)

Lemma length_append (a b : string) :
  String.length (a ++ b) = String.length a + String.length b.
Proof. induction a as [|c a IH]; simpl; [reflexivity | now rewrite IH]. Qed.

Lemma append_inj_r (a b c : string) : (a ++ c = b ++ c)%string -> a = b.
Proof.
  revert b. induction a as [|x a IH]; intros [|y b] H.
  - reflexivity.
  - simpl in H. apply (f_equal String.length) in H. simpl in H.
    rewrite length_append in H. lia.
  - simpl in H. apply (f_equal String.length) in H. simpl in H.
    rewrite length_append in H. lia.
  - simpl in H. injection H as -> H. now rewrite (IH b H).
Qed.

Lemma take8_v4_length (r : N) : String.length (Str.take 8 (Uuid.v4 r)) = 8.
Proof.
  unfold Uuid.v4, Uuid.hex2, Str.take.
  cbv beta iota zeta delta [String.append String.substring String.length].
  reflexivity.
Qed.

Lemma string_or_falsy_ill_typed (v : jsval) :
  string_or_falsy v = negb (ill_typed v).
Proof.
  destruct v as [| |[]|n|s|]; try reflexivity.
  - unfold string_or_falsy, ill_typed. simpl. now destruct (n =? 0)%Z.
  - now destruct s.
Qed.

Lemma field_throws (v : jsval) (old : string) (w : World) :
  ill_typed v = true ->
  (if truthy v then call_trim v else ret old) w = (Throws TypeError, w).
Proof.
  unfold ill_typed.
  destruct v as [| |[]|n|s|]; simpl; try discriminate; try reflexivity.
  - destruct (n =? 0)%Z; simpl; [discriminate | reflexivity].
  - destruct s; simpl; discriminate.
Qed.

Lemma tags_throws (v : jsval) (old : list string) (w : World) :
  ill_typed v = true ->
  (if truthy v then call_split_tags v else ret old) w = (Throws TypeError, w).
Proof.
  unfold ill_typed.
  destruct v as [| |[]|n|s|]; simpl; try discriminate; try reflexivity.
  - destruct (n =? 0)%Z; simpl; [discriminate | reflexivity].
  - destruct s; simpl; discriminate.
Qed.

Lemma filter_all {A} (f : A -> bool) (l : list A) :
  (forall x, f x = true) -> List.filter f l = l.
Proof.
  intros H. induction l as [|x l IH]; simpl; [reflexivity|].
  now rewrite H, IH.
Qed.

(** ** The stored collection, entry by entry *)

Lemma stored_posts_entries_aux (d : gmap string entry) (l : list (string * entry)) :
  (forall ne, ne ∈ l -> d !! fst ne = Some (snd ne)) ->
  omap (post_of d) (List.filter is_json (map fst l)) = omap contribution l.
Proof.
  induction l as [|[name e] l IH]; intros H; [reflexivity|].
  cbn [map List.filter fst omap list_omap]. unfold contribution at 1. cbn [fst snd].
  assert (He : d !! name = Some e) by (apply (H (name, e)); left).
  rewrite <- IH by (intros; apply H; now right).
  destruct (is_json name); [|reflexivity].
  cbn [omap list_omap]. unfold post_of at 1. rewrite He.
  destruct e as [|[|p]]; reflexivity.
Qed.

Lemma stored_posts_entries (d : gmap string entry) :
  stored_posts d = omap contribution (map_to_list d).
Proof.
  apply stored_posts_entries_aux. intros [name e] H.
  now apply elem_of_map_to_list.
Qed.

Lemma stored_posts_insert (d : gmap string entry) (name : string) (e : entry) :
  d !! name = None ->
  stored_posts (<[name := e]> d) ≡ₚ
  option_list (contribution (name, e)) ++ stored_posts d.
Proof.
  intros H. rewrite !stored_posts_entries.
  rewrite (map_to_list_insert d name e H). cbn [omap list_omap].
  destruct (contribution (name, e)); reflexivity.
Qed.

Lemma stored_posts_delete (d : gmap string entry) (name : string) (e : entry) :
  d !! name = Some e ->
  option_list (contribution (name, e)) ++ stored_posts (delete name d) ≡ₚ
  stored_posts d.
Proof.
  intros H. rewrite <- (insert_delete_id d name e H) at 2.
  symmetry. apply stored_posts_insert, lookup_delete_eq.
Qed.

Lemma stored_posts_overwrite (d : gmap string entry) (name : string) (e : entry) :
  stored_posts (<[name := e]> d) ≡ₚ
  option_list (contribution (name, e)) ++ stored_posts (delete name d).
Proof.
  rewrite <- insert_delete_eq. apply stored_posts_insert, lookup_delete_eq.
Qed.



Lemma contribution_not_json (name : string) (e : entry) :
  is_json name = false -> contribution (name, e) = None.
Proof. intros H. unfold contribution. cbn [fst]. now rewrite H. Qed.

Lemma stored_posts_delete_not_json (d : gmap string entry) (name : string) :
  is_json name = false -> stored_posts (delete name d) ≡ₚ stored_posts d.
Proof.
  intros H. destruct (d !! name) as [e|] eqn:E.
  - rewrite <- (stored_posts_delete d name e E), (contribution_not_json _ _ H).
    reflexivity.
  - now rewrite delete_id.
Qed.

Lemma is_json_file_name (t : string) (r : N) : is_json (Names.file_name t r) = true.
Proof. rewrite NameFacts.file_name_handle. apply StrFacts.endsWith_app. Qed.

Lemma handle_of_file_name (t : string) (r : N) :
  handle_of (Names.file_name t r) = Names.handle t r.
Proof. apply NameFacts.replace_file_name. Qed.

(** ** Running the operations, continued *)

Lemma getPostByFilename_none (w : World) (h : string) :
  (forall d p, posts_dir w = Some d ->
               d !! (h ++ ".json")%string <> Some (File (Json p))) ->
  getPostByFilename h w = (Returns None, w).
Proof.
  intros H. unfold getPostByFilename, try_catch, bind, fs.readFile, JSON.parse.
  destruct (posts_dir w) as [d|] eqn:Hd; [|reflexivity].
  destruct (d !! (h ++ ".json")%string) as [[|[|q]]|] eqn:E; try reflexivity.
  now destruct (H d q eq_refl).
Qed.

Lemma updatePost_no_post (h : string) (data : PostData.t) (w : World) :
  (forall d p, posts_dir w = Some d ->
               d !! (h ++ ".json")%string <> Some (File (Json p))) ->
  updatePost h data w = (Returns None, w).
Proof.
  intros H. unfold updatePost, try_catch.
  destruct (posts_dir w) as [d|] eqn:Hd.
  - destruct (d !! (h ++ ".json")%string) as [[|[|p]]|] eqn:E.
    + erewrite bind_throws; [reflexivity|]. unfold fs.readFile. now rewrite Hd, E.
    + erewrite bind_returns; [|unfold fs.readFile; now rewrite Hd, E].
      reflexivity.
    + now destruct (H d p eq_refl).
    + erewrite bind_throws; [reflexivity|]. unfold fs.readFile. now rewrite Hd, E.
  - erewrite bind_throws; [reflexivity|]. unfold fs.readFile. now rewrite Hd.
Qed.

Lemma updatePost_ill_typed (h : string) (data : PostData.t) (w : World) :
  ill_typed (PostData.title data) || ill_typed (PostData.content data) ||
  ill_typed (PostData.author data) || ill_typed (PostData.tags data) = true ->
  updatePost h data w = (Returns None, w).
Proof.
  intros H.
  destruct (posts_dir w) as [d|] eqn:Hd;
    [|apply updatePost_no_post; intros d p Hd'; congruence].
  destruct (d !! (h ++ ".json")%string) as [[|[|old]]|] eqn:E;
    try (apply updatePost_no_post; intros d' p Hd'; congruence).
  unfold updatePost, try_catch.
  assert (Hread : fs.readFile (h ++ ".json") w = (Returns (Json old), w)).
  { unfold fs.readFile. now rewrite Hd, E. }
  rewrite (bind_returns _ _ _ _ _ Hread).
  rewrite (bind_returns _ _ _ _ _ (eq_refl : JSON.parse (Json old) w = _)).
  destruct (ill_typed (PostData.title data)) eqn:Ht.
  { now rewrite (bind_throws _ _ _ _ _ (field_throws _ _ _ Ht)). }
  rewrite (bind_returns _ _ _ _ _ (trimmed_or_run _ _ _
    (eq_trans (string_or_falsy_ill_typed _) (f_equal negb Ht)))).
  destruct (ill_typed (PostData.content data)) eqn:Hc.
  { now rewrite (bind_throws _ _ _ _ _ (field_throws _ _ _ Hc)). }
  rewrite (bind_returns _ _ _ _ _ (trimmed_or_run _ _ _
    (eq_trans (string_or_falsy_ill_typed _) (f_equal negb Hc)))).
  destruct (ill_typed (PostData.author data)) eqn:Ha.
  { now rewrite (bind_throws _ _ _ _ _ (field_throws _ _ _ Ha)). }
  rewrite (bind_returns _ _ _ _ _ (trimmed_or_run _ _ _
    (eq_trans (string_or_falsy_ill_typed _) (f_equal negb Ha)))).
  destruct (ill_typed (PostData.tags data)) eqn:Hg; [|discriminate H].
  now rewrite (bind_throws _ _ _ _ _ (tags_throws _ _ _ Hg)).
Qed.

Lemma createPost_invalid (data : PostData.t) (w : World) :
  valid_data data = false -> createPost data w = (Throws TypeError, draw w).
Proof.
  intros H. unfold valid_data in H.
  destruct (is_string (PostData.title data) && is_string (PostData.content data))
    eqn:Etc; [|now apply createPost_throws].
  apply andb_true_iff in Etc as [Ht Hc].
  destruct (PostData.title data) as [| | | |t|] eqn:Et; try discriminate.
  destruct (PostData.content data) as [| | | |c|] eqn:Ec; try discriminate.
  cbn [is_string andb] in H.
  unfold createPost. rewrite Et, Ec.
  rewrite (bind_returns _ _ _ _ _ (eq_refl : uuidv4 w = _)).
  unfold call_trim at 1 2.
  rewrite (bind_returns _ _ _ _ _ (eq_refl : ret (Str.trim t) (draw w) = _)).
  rewrite (bind_returns _ _ _ _ _ (eq_refl : ret (Str.trim c) (draw w) = _)).
  destruct (string_or_falsy (PostData.author data)) eqn:Ha.
  - rewrite (bind_returns _ _ _ _ _ (trimmed_or_run _ "Anonymous" _ Ha)).
    cbn [andb] in H. rewrite string_or_falsy_ill_typed in H.
    apply negb_false_iff in H.
    now rewrite (bind_throws _ _ _ _ _ (tags_throws _ _ _ H)).
  - rewrite string_or_falsy_ill_typed in Ha. apply negb_false_iff in Ha.
    now rewrite (bind_throws _ _ _ _ _ (field_throws _ _ _ Ha)).
Qed.

(** ** Running the handlers *)

Lemma validation_branch (body : PostData.t) :
  negb (truthy (PostData.title body)) || negb (truthy (PostData.content body)) =
  negb (passes_validation body).
Proof. unfold passes_validation. now rewrite negb_andb. Qed.

Lemma show_found (w : World) (d : gmap string entry) (h : string) (q : Post.t)
      (message : jsval) :
  posts_dir w = Some d -> d !! (h ++ ".json")%string = Some (File (Json q)) ->
  show h message w =
  (Returns (Render 200 (ShowPage (Post.title q) (Post.set_filename h q)
                                 (or_null message))), w).
Proof.
  intros Hd Hq. unfold show, try_catch.
  now rewrite (bind_returns _ _ _ _ _ (getPostByFilename_found w d h q Hd Hq)).
Qed.

(** ** Properties of the storage module *)

(** X1.  [generateFilename] on a string always returns, after one draw of
    random bytes, a name of the form slug, hyphen, eight characters, [.json].
    The handle, which is the name without the extension, holds only lower
    case letters, digits, hyphens and underscores, whatever the title; the
    name passes the filter of [getAllPosts], and removing [.json] from it
    gives the handle back. *)
Theorem generateFilename_url_safe (title : string) (w : World) :
  exists name h uid,
    generateFilename (JStr title) w = (Returns name, draw w) /\
    name = (h ++ ".json")%string /\
    h = (Slugify.slugify title ++ "-" ++ uid)%string /\
    String.length uid = 8 /\
    Names.all_chars Names.slug_char h = true /\
    is_json name = true /\
    handle_of name = h.
Proof.
  exists (Names.file_name title (entropy w (entropy_draws w))),
         (Names.handle title (entropy w (entropy_draws w))),
         (Str.take 8 (Uuid.v4 (entropy w (entropy_draws w)))).
  split; [apply generateFilename_run|].
  split; [apply NameFacts.file_name_handle|].
  split; [reflexivity|].
  split; [apply take8_v4_length|].
  split.
  - unfold Names.handle.
    rewrite !StrFacts.all_chars_app, NameFacts.slugify_alphabet,
      NameFacts.uniqueId_alphabet. reflexivity.
  - split.
    + rewrite NameFacts.file_name_handle. apply StrFacts.endsWith_app.
    + apply NameFacts.replace_file_name.
Qed.


(** X4.  [updatePost] answers [null] and changes nothing when there is no
    post to read under a plain handle, and it gives the same answer, for
    every handle, when a provided field is present and not a string: the
    [TypeError] of [trim] or [split] is caught by the same [catch].  A
    caller cannot tell the two failures apart. *)
Theorem updatePost_failure_is_not_found (h : string) (data : PostData.t)
        (w : World) :
  (plain_handle h = true -> no_post_at h w ->
   updatePost h data w = (Returns None, w)) /\
  (ill_typed (PostData.title data) || ill_typed (PostData.content data) ||
   ill_typed (PostData.author data) || ill_typed (PostData.tags data) = true ->
   updatePost h data w = (Returns None, w)).
Proof.
  split.
  - intros _ Hnone. apply updatePost_no_post. now apply no_post_at_lookup.
  - apply updatePost_ill_typed.
Qed.

(** X5.  A successful [updatePost] rewrites the file of its handle and
    nothing else: the directory keeps its set of names, every other entry is
    unchanged, [getPostByFilename] answers as before on every other plain
    handle, and no random bytes are drawn (the id and the file name are
    kept). *)
Theorem updatePost_touches_one_file (w : World) (d : gmap string entry)
        (h : string) (old : Post.t) (data : PostData.t) :
  posts_dir w = Some d ->
  d !! (h ++ ".json")%string = Some (File (Json old)) ->
  string_or_falsy (PostData.title data) = true ->
  string_or_falsy (PostData.content data) = true ->
  string_or_falsy (PostData.author data) = true ->
  string_or_falsy (PostData.tags data) = true ->
  exists p w' d',
    updatePost h data w = (Returns (Some p), w') /\
    posts_dir w' = Some d' /\
    dom d' = dom d /\
    (forall name, name <> (h ++ ".json")%string -> d' !! name = d !! name) /\
    (forall h', plain_handle h' = true -> h' <> h ->
       fst (getPostByFilename h' w') = fst (getPostByFilename h' w)) /\
    entropy_draws w' = entropy_draws w.
Proof.
  intros Hd Hold Ht Hc Ha Hg.
  pose proof (updatePost_run w d h old data Hd Hold Ht Hc Ha Hg) as Hrun.
  cbv zeta in Hrun.
  eexists _, _, _. split; [exact Hrun|]. split; [reflexivity|].
  split; [|split; [|split; [|reflexivity]]].
  - apply dom_insert_lookup_L. now rewrite Hold.
  - intros name Hne. now apply lookup_insert_ne.
  - intros h' _ Hne.
    assert (Hn : (h ++ ".json")%string <> (h' ++ ".json")%string).
    { intros E. apply append_inj_r in E. congruence. }
    unfold getPostByFilename, try_catch, bind, fs.readFile. cbn [posts_dir set_dir tick].
    rewrite Hd, lookup_insert_ne by exact Hn.
    destruct (d !! (h' ++ ".json")%string) as [[|[|q]]|]; reflexivity.
Qed.

(** X6.  On valid data [createPost] writes exactly one file, a [.json]
    file holding the post it returns (up to [filename], which is the name
    without the extension), and leaves every other entry as it was.  When the
    generated name is free the directory grows by one entry; when a file of
    that name exists it is replaced without notice and the directory keeps
    its set of names. *)
Theorem createPost_writes_one_file (w : World) (d : gmap string entry)
        (data : PostData.t) :
  valid_data data = true -> posts_dir w = Some d -> no_subdir d = true ->
  exists p w' d' name q,
    createPost data w = (Returns p, w') /\
    posts_dir w' = Some d' /\
    is_json name = true /\
    p = Post.set_filename (handle_of name) q /\
    d' !! name = Some (File (Json q)) /\
    (forall other, other <> name -> d' !! other = d !! other) /\
    (d !! name = None -> size d' = S (size d)) /\
    (is_Some (d !! name) -> dom d' = dom d).
Proof.
  unfold valid_data. rewrite !andb_true_iff. intros [[[Ht Hc] Ha] Hg] Hd Hsub.
  destruct (PostData.title data) as [| | | |t|] eqn:Et; try discriminate.
  destruct (PostData.content data) as [| | | |c|] eqn:Ec; try discriminate.
  pose proof (createPost_run w d data t c Hd Et Ec Ha Hg
                (no_subdir_lookup _ _ Hsub)) as Hrun.
  cbv zeta in Hrun.
  eexists _, _, _, (Names.file_name t (entropy w (S (entropy_draws w)))), _.
  split; [exact Hrun|]. split; [reflexivity|].
  split; [apply is_json_file_name|].
  split; [now rewrite handle_of_file_name|].
  split; [apply lookup_insert_eq|].
  split; [intros other Hne; now apply lookup_insert_ne|].
  split.
  - intros Hfree. now apply map_size_insert_None.
  - intros Htaken. now apply dom_insert_lookup_L.
Qed.




(** X10.  The post [createPost] returns on valid data is clean: title,
    content and author have no white space at either end, and every tag is
    not empty, trimmed and free of commas. *)
Theorem createPost_gives_clean_post (data : PostData.t) (w : World)
        (d : gmap string entry) :
  valid_data data = true -> posts_dir w = Some d -> no_subdir d = true ->
  exists p w', createPost data w = (Returns p, w') /\ clean_post p.
Proof.
  unfold valid_data. rewrite !andb_true_iff. intros [[[Ht Hc] Ha] Hg] Hd Hsub.
  destruct (PostData.title data) as [| | | |t|] eqn:Et; try discriminate.
  destruct (PostData.content data) as [| | | |c|] eqn:Ec; try discriminate.
  pose proof (createPost_run w d data t c Hd Et Ec Ha Hg
                (no_subdir_lookup _ _ Hsub)) as Hrun.
  cbv zeta in Hrun. eexists _, _. split; [exact Hrun|].
  unfold clean_post. cbn [Post.set_filename Post.title Post.content Post.author Post.tags].
  split; [apply TrimFacts.trim_idempotent|]. split; [apply TrimFacts.trim_idempotent|].
  split; [now apply trimmed_trimmed_or | now apply clean_tags_or].
Qed.

(** X11.  [updatePost] keeps posts clean: when the stored post is clean
    and the provided fields are strings or absent, the updated post is clean
    too. *)
Theorem updatePost_keeps_post_clean (w : World) (d : gmap string entry)
        (h : string) (old : Post.t) (data : PostData.t) :
  posts_dir w = Some d ->
  d !! (h ++ ".json")%string = Some (File (Json old)) ->
  string_or_falsy (PostData.title data) = true ->
  string_or_falsy (PostData.content data) = true ->
  string_or_falsy (PostData.author data) = true ->
  string_or_falsy (PostData.tags data) = true ->
  clean_post old ->
  exists p w', updatePost h data w = (Returns (Some p), w') /\ clean_post p.
Proof.
  intros Hd Hold Ht Hc Ha Hg (Ct & Cc & Ca & Cg).
  pose proof (updatePost_run w d h old data Hd Hold Ht Hc Ha Hg) as Hrun.
  cbv zeta in Hrun. eexists _, _. split; [exact Hrun|].
  unfold clean_post, merged.
  cbn [Post.set_filename Post.title Post.content Post.author Post.tags].
  split; [now apply trimmed_trimmed_or|]. split; [now apply trimmed_trimmed_or|].
  split; [now apply trimmed_trimmed_or | now apply clean_tags_or].
Qed.

(** X12.  [createPost] does not require a title with content in it: on a
    title made of white space only (the empty string included) it returns a
    post whose title is the empty string and whose handle is a hyphen
    followed by the eight characters of the unique id, the slug being
    empty. *)
Theorem createPost_blank_title (data : PostData.t) (w : World)
        (d : gmap string entry) (t : string) :
  valid_data data = true -> PostData.title data = JStr t ->
  Names.all_chars Str.is_space t = true ->
  posts_dir w = Some d -> no_subdir d = true ->
  exists p w' uid,
    createPost data w = (Returns p, w') /\
    Post.title p = "" /\
    Post.filename p = Some ("-" ++ uid)%string /\ String.length uid = 8.
Proof.
  intros Hvalid Et Hblank Hd Hsub.
  unfold valid_data in Hvalid. rewrite !andb_true_iff in Hvalid.
  destruct Hvalid as [[[_ Hc] Ha] Hg].
  destruct (PostData.content data) as [| | | |c|] eqn:Ec; try discriminate.
  pose proof (createPost_run w d data t c Hd Et Ec Ha Hg
                (no_subdir_lookup _ _ Hsub)) as Hrun.
  cbv zeta in Hrun.
  eexists _, _, (Str.take 8 (Uuid.v4 (entropy w (S (entropy_draws w))))).
  split; [exact Hrun|].
  cbn [Post.set_filename Post.title Post.filename].
  split; [now apply trim_blank|].
  split; [|apply take8_v4_length].
  unfold Names.handle. now rewrite (slugify_blank t Hblank).
Qed.

(** X13.  [createPost] returns only on valid data: title and content
    strings, author and tags strings or falsy.  On any other data, in every
    state, it throws a [TypeError] after drawing the id and before anything
    is written; this covers an author or tags that are truthy and not
    strings, besides the missing title or content. *)
Theorem createPost_returns_only_on_valid (data : PostData.t) (w : World) :
  (valid_data data = false ->
   createPost data w = (Throws TypeError, draw w) /\
   posts_dir (draw w) = posts_dir w) /\
  ((exists p w', createPost data w = (Returns p, w')) ->
   valid_data data = true).
Proof.
  split.
  - intros H. split; [now apply createPost_invalid | reflexivity].
  - intros (p & w' & Hrun). destruct (valid_data data) eqn:E; [reflexivity|].
    rewrite (createPost_invalid data w E) in Hrun. discriminate.
Qed.

(** X14.  On a collection of stored posts [searchPosts] with the empty
    query returns what [getAllPosts] returns, all the stored posts in the
    same order: the empty string occurs in every title. *)
Theorem searchPosts_empty_query (Date_parse : string -> option Z) (w : World)
        (d : gmap string entry) :
  posts_dir w = Some d -> every_file_parses d ->
  exists posts,
    getAllPosts Date_parse w = (Returns posts, w) /\
    posts ≡ₚ stored_posts d /\
    searchPosts Date_parse "" w = (Returns posts, w).
Proof.
  intros Hd Hposts.
  pose proof (getAllPosts_parses Date_parse w d Hd Hposts) as Hall.
  eexists. split; [exact Hall|]. split; [apply sort_perm|].
  unfold searchPosts. rewrite (bind_returns _ _ _ _ _ Hall). unfold ret.
  rewrite filter_all; [reflexivity|].
  intros p. cbn [Str.toLowerCase Str.includes].
  now destruct (Str.toLowerCase (Post.title p)).
Qed.

(** X15.  On a collection of stored posts, every stored post that carries
    a tag up to case is returned by [getPostsByTag] for that tag, and every
    post [getPostsByTag] returns is among the posts [searchPosts] returns
    for the same string as the query: a tag equal to it up to case contains
    it up to case. *)
Theorem getPostsByTag_within_searchPosts (Date_parse : string -> option Z)
        (tag : string) (w : World) (d : gmap string entry) :
  posts_dir w = Some d -> every_file_parses d ->
  exists byTag found,
    getPostsByTag Date_parse tag w = (Returns byTag, w) /\
    searchPosts Date_parse tag w = (Returns found, w) /\
    (forall p, p ∈ stored_posts d -> tagged tag p -> p ∈ byTag) /\
    (forall p, p ∈ byTag -> p ∈ found).
Proof.
  intros Hd Hposts.
  pose proof (getAllPosts_parses Date_parse w d Hd Hposts) as Hall.
  eexists _, _.
  split; [unfold getPostsByTag; rewrite (bind_returns _ _ _ _ _ Hall); reflexivity|].
  split; [unfold searchPosts; rewrite (bind_returns _ _ _ _ _ Hall); reflexivity|].
  split.
  - intros p Hin Ht. rewrite list_elem_of_In, filter_In, tag_filter_spec,
      <- list_elem_of_In.
    split; [now rewrite sort_perm | exact Ht].
  - intros p. rewrite !list_elem_of_In, !filter_In.
    intros [Hin Ht]. split; [exact Hin|].
    apply search_filter_spec. apply tag_filter_spec in Ht as (t & Hmem & Heq).
    right. right. exists t. split; [exact Hmem|].
    exists ""%string, t, ""%string. split; [|exact Heq].
    simpl. now rewrite StrFacts.append_nil_r.
Qed.

(** X16.  Entries whose name does not end in [.json] do not change the
    listing: adding or replacing such an entry, whatever it holds, leaves
    the result of [getAllPosts] the same up to the order of the directory
    listing. *)
Theorem other_files_do_not_count (Date_parse : string -> option Z) (w : World)
        (d : gmap string entry) (name : string) (e : entry) :
  posts_dir w = Some d -> is_json name = false ->
  exists before after,
    getAllPosts Date_parse w = (Returns before, w) /\
    getAllPosts Date_parse (set_dir (<[name := e]> d) w) =
      (Returns after, set_dir (<[name := e]> d) w) /\
    after ≡ₚ before.
Proof.
  intros Hd Hname.
  assert (Hne : forall file, is_json file = true -> name <> file).
  { intros file Hj ->. congruence. }
  destruct (all_readable d) eqn:E.
  - apply all_readable_true in E. eexists _, _.
    split; [apply (getAllPosts_parses Date_parse w d Hd E)|].
    split.
    + eapply getAllPosts_parses; [reflexivity|].
      intros file e' He' Hj. rewrite lookup_insert_ne in He' by now apply Hne.
      now apply (E file).
    + rewrite !sort_perm, stored_posts_overwrite,
        (contribution_not_json _ _ Hname).
      now apply stored_posts_delete_not_json.
  - apply all_readable_false in E. exists [], [].
    split; [apply (getAllPosts_fails Date_parse w d Hd E)|].
    split; [|reflexivity].
    eapply getAllPosts_fails; [reflexivity|].
    destruct E as (file & e' & He' & Hj & Hbad).
    exists file, e'. split; [|now split].
    now rewrite lookup_insert_ne by now apply Hne.
Qed.

(** ** Properties of the request handlers *)

(** X17.  The handler of POST /posts.  When the title or the content is
    falsy it renders the form again with the error message and the body and
    writes nothing.  On a valid body that passes this check, in a directory
    of regular files, it redirects to /posts/ followed by the handle of the
    new post, and the handler of GET /posts/:filename on that handle then
    renders the created post with status 200. *)
Theorem create_then_show (body : PostData.t) (w : World) :
  (passes_validation body = false ->
   create body w =
   (Returns (Render 200 (NewPage (Some "Title and content are required!")
                                 (Some body))), w)) /\
  (forall d,
     passes_validation body = true -> valid_data body = true ->
     posts_dir w = Some d -> no_subdir d = true ->
     exists p w' h,
       create body w =
       (Returns (Redirect ("/posts/" ++ h ++
                           "?message=Post created successfully!")), w') /\
       Post.filename p = Some h /\
       forall message,
         show h message w' =
         (Returns (Render 200 (ShowPage (Post.title p) p (or_null message))), w')).
Proof.
  split.
  - intros H. unfold create, try_catch. now rewrite validation_branch, H.
  - intros d Hpass Hvalid Hd Hsub.
    unfold valid_data in Hvalid. rewrite !andb_true_iff in Hvalid.
    destruct Hvalid as [[[Ht Hc] Ha] Hg].
    destruct (PostData.title body) as [| | | |t|] eqn:Et; try discriminate.
    destruct (PostData.content body) as [| | | |c|] eqn:Ec; try discriminate.
    pose proof (createPost_run w d body t c Hd Et Ec Ha Hg
                  (no_subdir_lookup _ _ Hsub)) as Hrun.
    cbv zeta in Hrun.
    match type of Hrun with
    | _ = (Returns ?p, ?w') =>
        exists p, w', (Names.handle t (entropy w (S (entropy_draws w))))
    end.
    split; [|split].
    + unfold create, try_catch. rewrite validation_branch, Hpass. cbn [negb].
      rewrite (bind_returns _ _ _ _ _ Hrun). reflexivity.
    + reflexivity.
    + intros message.
      match type of Hrun with
      | _ = (Returns (Post.set_filename ?h ?q), set_dir ?d' ?w0) =>
          refine (show_found (set_dir d' w0) d' h q message eq_refl _)
      end.
      rewrite <- NameFacts.file_name_handle. apply lookup_insert_eq.
Qed.

(** X18.  The handler of POST /posts on a body that passes its check and
    is not valid (a field sent as an array or an object) hands a [TypeError]
    to [next], so the request ends in a server error, and nothing is
    written. *)
Theorem create_ill_typed_body (body : PostData.t) (w : World) :
  passes_validation body = true -> valid_data body = false ->
  create body w = (Returns (Next TypeError), draw w) /\
  posts_dir (draw w) = posts_dir w.
Proof.
  intros Hpass Hbad. split; [|reflexivity].
  unfold create, try_catch. rewrite validation_branch, Hpass. cbn [negb].
  now rewrite (bind_throws _ _ _ _ _ (createPost_invalid body w Hbad)).
Qed.

(** X19.  The check of the two handlers that take a body is truthiness,
    before trimming: a title of white space only passes it.  Creating with
    such a title stores a post with the empty title, and updating with it
    does the same to an existing post; both answer with the redirect of
    success. *)
Theorem blank_title_passes_validation (w : World) (d : gmap string entry)
        (body : PostData.t) (t : string) :
  PostData.title body = JStr t -> t <> "" ->
  Names.all_chars Str.is_space t = true ->
  valid_data body = true -> truthy (PostData.content body) = true ->
  posts_dir w = Some d -> no_subdir d = true ->
  (exists p w' h,
     create body w =
     (Returns (Redirect ("/posts/" ++ h ++
                         "?message=Post created successfully!")), w') /\
     getPostByFilename h w' = (Returns (Some p), w') /\ Post.title p = "") /\
  (forall h old,
     d !! (h ++ ".json")%string = Some (File (Json old)) ->
     exists p w',
       update h body w =
       (Returns (Redirect ("/posts/" ++ h ++
                           "?message=Post updated successfully!")), w') /\
       getPostByFilename h w' = (Returns (Some p), w') /\ Post.title p = "").
Proof.
  intros Et Hne Hblank Hvalid Hcontent Hd Hsub.
  assert (Hpass : passes_validation body = true).
  { unfold passes_validation. rewrite Et, Hcontent.
    destruct t; [contradiction | reflexivity]. }
  unfold valid_data in Hvalid. rewrite !andb_true_iff in Hvalid.
  destruct Hvalid as [[[_ Hc] Ha] Hg].
  destruct (PostData.content body) as [| | | |c|] eqn:Ec; try discriminate.
  split.
  - pose proof (createPost_run w d body t c Hd Et Ec Ha Hg
                  (no_subdir_lookup _ _ Hsub)) as Hrun.
    cbv zeta in Hrun.
    match type of Hrun with
    | _ = (Returns ?p, ?w') =>
        exists p, w', (Names.handle t (entropy w (S (entropy_draws w))))
    end.
    split; [|split].
    + unfold create, try_catch. rewrite validation_branch, Hpass. cbn [negb].
      rewrite (bind_returns _ _ _ _ _ Hrun). reflexivity.
    + erewrite getPostByFilename_found; [reflexivity | reflexivity |].
      rewrite <- NameFacts.file_name_handle. apply lookup_insert_eq.
    + now apply trim_blank.
  - intros h old Hold.
    assert (Ht : string_or_falsy (PostData.title body) = true) by now rewrite Et.
    assert (Hc' : string_or_falsy (PostData.content body) = true) by now rewrite Ec.
    pose proof (updatePost_run w d h old body Hd Hold Ht Hc' Ha Hg) as Hrun.
    cbv zeta in Hrun.
    match type of Hrun with
    | _ = (Returns (Some ?p), ?w') => exists p, w'
    end.
    split; [|split].
    + unfold update, try_catch. rewrite validation_branch, Hpass. cbn [negb].
      now rewrite (bind_returns _ _ _ _ _ Hrun).
    + erewrite getPostByFilename_found; [reflexivity | reflexivity |].
      apply lookup_insert_eq.
    + cbn [Post.set_filename merged Post.title]. rewrite Et.
      destruct t; [contradiction|]. now apply trim_blank.
Qed.


(** X21.  The handler of POST /posts/:filename when there is no post to
    read under a plain handle: a body that passes the check gets the 404
    page, a body that fails it makes the handler read the title of [null]
    and hand a [TypeError] to [next].  With a body that passes the check and
    holds a present field that is not a string the answer is the 404 page
    as well, for every handle, whether or not the post exists.  Nothing is
    written in any of these cases. *)
Theorem update_failures (h : string) (body : PostData.t) (w : World) :
  (plain_handle h = true -> no_post_at h w ->
   update h body w =
   (Returns (if passes_validation body
             then not_found_page
                    "The blog post you are trying to update does not exist."
             else Next TypeError), w)) /\
  (passes_validation body = true ->
   ill_typed (PostData.title body) || ill_typed (PostData.content body) ||
   ill_typed (PostData.author body) || ill_typed (PostData.tags body) = true ->
   update h body w =
   (Returns (not_found_page
               "The blog post you are trying to update does not exist."), w)).
Proof.
  split.
  - intros _ Hnone. pose proof (no_post_at_lookup h w Hnone) as Hkey.
    clear Hnone. rename Hkey into Hnone. unfold update, try_catch.
    rewrite validation_branch.
    destruct (passes_validation body); cbn [negb].
    + now rewrite (bind_returns _ _ _ _ _ (updatePost_no_post h body w Hnone)).
    + now rewrite (bind_returns _ _ _ _ _ (getPostByFilename_none w h Hnone)).
  - intros Hpass Hbad. unfold update, try_catch.
    rewrite validation_branch, Hpass. cbn [negb].
    now rewrite (bind_returns _ _ _ _ _ (updatePost_ill_typed h body w Hbad)).
Qed.




(** ** The further properties at concrete inputs *)


Lemma updatePost_failure_is_not_found_witness :
  updatePost "no-such-post" first_post_data good_world = (Returns None, good_world) /\
  updatePost "hello-world-6f1c2a9e" array_tags_data good_world =
    (Returns None, good_world).
Proof.
  split.
  - apply (proj1 (updatePost_failure_is_not_found "no-such-post" first_post_data
                    good_world)).
    + reflexivity.
    + left. reflexivity.
  - apply (proj2 (updatePost_failure_is_not_found "hello-world-6f1c2a9e"
                    array_tags_data good_world)).
    reflexivity.
Defined.

Lemma updatePost_touches_one_file_witness :
  exists p w' d',
    updatePost "hello-world-6f1c2a9e" hello_revision good_world =
      (Returns (Some p), w') /\
    posts_dir w' = Some d' /\
    dom d' = dom good_dir /\
    (forall name, name <> "hello-world-6f1c2a9e.json" ->
                  d' !! name = good_dir !! name) /\
    (forall h', plain_handle h' = true -> h' <> "hello-world-6f1c2a9e" ->
       fst (getPostByFilename h' w') = fst (getPostByFilename h' good_world)) /\
    entropy_draws w' = entropy_draws good_world.
Proof.
  apply (updatePost_touches_one_file good_world good_dir "hello-world-6f1c2a9e"
           hello_post hello_revision).
  - reflexivity.
  - reflexivity.
  - reflexivity.
  - reflexivity.
  - reflexivity.
  - reflexivity.
Defined.

Lemma createPost_writes_one_file_witness :
  exists p w' d' name q,
    createPost first_post_data good_world = (Returns p, w') /\
    posts_dir w' = Some d' /\
    is_json name = true /\
    p = Post.set_filename (handle_of name) q /\
    d' !! name = Some (File (Json q)) /\
    (forall other, other <> name -> d' !! other = good_dir !! other) /\
    (good_dir !! name = None -> size d' = S (size good_dir)) /\
    (is_Some (good_dir !! name) -> dom d' = dom good_dir).
Proof.
  apply (createPost_writes_one_file good_world good_dir first_post_data).
  - reflexivity.
  - reflexivity.
  - reflexivity.
Defined.




Lemma createPost_gives_clean_post_witness :
  exists p w', createPost note_data good_world = (Returns p, w') /\ clean_post p.
Proof.
  apply (createPost_gives_clean_post note_data good_world good_dir).
  - reflexivity.
  - reflexivity.
  - reflexivity.
Defined.

Lemma updatePost_keeps_post_clean_witness :
  exists p w',
    updatePost "hello-world-6f1c2a9e" hello_revision good_world =
      (Returns (Some p), w') /\
    clean_post p.
Proof.
  apply (updatePost_keeps_post_clean good_world good_dir "hello-world-6f1c2a9e"
           hello_post hello_revision).
  - reflexivity.
  - reflexivity.
  - reflexivity.
  - reflexivity.
  - reflexivity.
  - reflexivity.
  - split; [reflexivity|]. split; [reflexivity|]. split; [reflexivity|].
    constructor; [|constructor].
    split; [discriminate|]. split; reflexivity.
Defined.

Lemma createPost_blank_title_witness :
  exists p w' uid,
    createPost blank_title_data good_world = (Returns p, w') /\
    Post.title p = "" /\
    Post.filename p = Some ("-" ++ uid)%string /\ String.length uid = 8.
Proof.
  apply (createPost_blank_title blank_title_data good_world good_dir "   ").
  - reflexivity.
  - reflexivity.
  - reflexivity.
  - reflexivity.
  - reflexivity.
Defined.

Lemma createPost_returns_only_on_valid_witness :
  createPost array_tags_data good_world = (Throws TypeError, draw good_world) /\
  posts_dir (draw good_world) = posts_dir good_world.
Proof.
  apply (proj1 (createPost_returns_only_on_valid array_tags_data good_world)).
  reflexivity.
Defined.

Lemma other_files_do_not_count_witness :
  exists before after,
    getAllPosts Date.parse_iso good_world = (Returns before, good_world) /\
    getAllPosts Date.parse_iso
      (set_dir (<["notes.txt" := File Garbage]> good_dir) good_world) =
      (Returns after, set_dir (<["notes.txt" := File Garbage]> good_dir) good_world) /\
    after ≡ₚ before.
Proof.
  apply (other_files_do_not_count Date.parse_iso good_world good_dir "notes.txt"
           (File Garbage)).
  - reflexivity.
  - reflexivity.
Defined.

Lemma create_then_show_witness :
  create (PostData.mk (JStr "") (JStr "Body") JUndefined JUndefined) good_world =
    (Returns (Render 200 (NewPage (Some "Title and content are required!")
                (Some (PostData.mk (JStr "") (JStr "Body") JUndefined JUndefined)))),
     good_world) /\
  exists p w' h,
    create first_post_data good_world =
      (Returns (Redirect ("/posts/" ++ h ++ "?message=Post created successfully!")),
       w') /\
    Post.filename p = Some h /\
    forall message,
      show h message w' =
      (Returns (Render 200 (ShowPage (Post.title p) p (or_null message))), w').
Proof.
  split.
  - apply (proj1 (create_then_show
                    (PostData.mk (JStr "") (JStr "Body") JUndefined JUndefined)
                    good_world)).
    reflexivity.
  - apply (proj2 (create_then_show first_post_data good_world) good_dir).
    + reflexivity.
    + reflexivity.
    + reflexivity.
    + reflexivity.
Defined.

Lemma create_ill_typed_body_witness :
  create array_tags_data good_world = (Returns (Next TypeError), draw good_world) /\
  posts_dir (draw good_world) = posts_dir good_world.
Proof.
  apply (create_ill_typed_body array_tags_data good_world).
  - reflexivity.
  - reflexivity.
Defined.


Lemma update_failures_witness :
  update "no-such-post" full_revision good_world =
    (Returns (not_found_page
                "The blog post you are trying to update does not exist."),
     good_world) /\
  update "no-such-post" hello_revision good_world =
    (Returns (Next TypeError), good_world) /\
  update "hello-world-6f1c2a9e" array_tags_data good_world =
    (Returns (not_found_page
                "The blog post you are trying to update does not exist."),
     good_world).
Proof.
  split; [|split].
  - apply (proj1 (update_failures "no-such-post" full_revision good_world)).
    + reflexivity.
    + left. reflexivity.
  - apply (proj1 (update_failures "no-such-post" hello_revision good_world)).
    + reflexivity.
    + left. reflexivity.
  - apply (proj2 (update_failures "hello-world-6f1c2a9e" array_tags_data
                    good_world)).
    + reflexivity.
    + reflexivity.
Defined.


Lemma blank_title_passes_validation_witness :
  (exists p w' h,
     create blank_title_data good_world =
     (Returns (Redirect ("/posts/" ++ h ++
                         "?message=Post created successfully!")), w') /\
     getPostByFilename h w' = (Returns (Some p), w') /\ Post.title p = "") /\
  (forall h old,
     good_dir !! (h ++ ".json")%string = Some (File (Json old)) ->
     exists p w',
       update h blank_title_data good_world =
       (Returns (Redirect ("/posts/" ++ h ++
                           "?message=Post updated successfully!")), w') /\
       getPostByFilename h w' = (Returns (Some p), w') /\ Post.title p = "").
Proof.
  apply (blank_title_passes_validation good_world good_dir blank_title_data "   ").
  - reflexivity.
  - discriminate.
  - reflexivity.
  - reflexivity.
  - reflexivity.
  - reflexivity.
  - reflexivity.
Defined.


Lemma searchPosts_empty_query_witness :
  exists posts,
    getAllPosts Date.parse_iso good_world = (Returns posts, good_world) /\
    posts ≡ₚ stored_posts good_dir /\
    searchPosts Date.parse_iso "" good_world = (Returns posts, good_world).
Proof.
  apply (searchPosts_empty_query Date.parse_iso good_world good_dir).
  - reflexivity.
  - apply all_readable_true. reflexivity.
Defined.

Lemma getPostsByTag_within_searchPosts_witness :
  exists byTag found,
    getPostsByTag Date.parse_iso "Hello"
      (world_with (Some search_dir)) = (Returns byTag, world_with (Some search_dir)) /\
    searchPosts Date.parse_iso "Hello"
      (world_with (Some search_dir)) = (Returns found, world_with (Some search_dir)) /\
    (forall p, p ∈ stored_posts search_dir -> tagged "Hello" p -> p ∈ byTag) /\
    (forall p, p ∈ byTag -> p ∈ found).
Proof.
  apply (getPostsByTag_within_searchPosts Date.parse_iso "Hello"
           (world_with (Some search_dir)) search_dir).
  - reflexivity.
  - apply all_readable_true. reflexivity.
Defined.

